(** * copy_skin.py: the Copy Skin Weights tool

    The script is a set of UI callbacks that drive a host application
    (Maya) through its command interface [maya.cmds] / [maya.mel].  The
    model has three layers:

    - the host scene, kept abstract: a [Host] record gives the replies of
      the scene commands the script calls;
    - the tool's widgets (two text scroll lists and two buttons), modelled
      concretely, since the script's list management depends on them;
    - the script itself, written in a state-and-exception monad [M] whose
      state is a [World]: the scene, the widgets, and the history of every
      host command issued so far. *)

From Stdlib Require Import List String Ascii Bool Arith NArith Lia Permutation Sorted.
Import ListNotations.
Local Open Scope string_scope.
Local Open Scope list_scope.

(** ** Python values the script tests for truth *)

(** [if not s] on a string: the empty string is false. *)
Definition str_truthy (s : string) : bool :=
  match s with
  | EmptyString => false
  | String _ _ => true
  end.

(** A command that answers a list or [None]: [if xs] is false on both
    [None] and the empty list. *)
Definition list_truthy (xs : option (list string)) : bool :=
  match xs with
  | Some (_ :: _) => true
  | _ => false
  end.

(** [xs or []] *)
Definition or_empty (xs : option (list string)) : list string :=
  match xs with
  | Some (x :: l) => x :: l
  | _ => []
  end.

(** [obj in items] on a list of strings. *)
Fixpoint py_in (obj : string) (items : list string) : bool :=
  match items with
  | [] => false
  | x :: rest => if String.eqb obj x then true else py_in obj rest
  end.

(** [sorted(items)] on strings: Python orders [str] lexicographically by
    character code, which is [String.leb]; that order is total and
    antisymmetric, so the sorted permutation is unique and the sorting
    algorithm does not show in the result.  Insertion sort computes it. *)
Fixpoint insert_sorted (x : string) (l : list string) : list string :=
  match l with
  | [] => [x]
  | y :: rest => if String.leb x y then x :: y :: rest else y :: insert_sorted x rest
  end.

Fixpoint sorted (items : list string) : list string :=
  match items with
  | [] => []
  | x :: rest => insert_sorted x (sorted rest)
  end.

(** The order [sorted] sorts by. *)
Definition le_str (a b : string) : Prop := String.leb a b = true.

(** ** Widgets *)

(** The module globals [source_list], [target_list], [copy_button] and
    [toggle_button] name the four widgets [create_ui] builds. *)
Inductive ListWidget : Type := source_list | target_list.
Inductive ButtonWidget : Type := copy_button | toggle_button.

(** The callbacks the buttons are bound to. *)
Inductive Callback : Type :=
| cb_add_to_source
| cb_add_to_target
| cb_remove_selected_from_source
| cb_remove_selected_from_target
| cb_copy_weights_button_pressed
| cb_copy_weights_one_to_one
| cb_clear_source_list
| cb_clear_target_list
| cb_toggle_mode
| cb_sort_column_a
| cb_sort_column_b.

(** The two background colours the script uses. *)
Inductive Color : Type :=
| orange      (* (1.0, 0.6, 0.0) *)
| sky_blue.   (* (0.4, 0.8, 1.0) *)

Record TextScrollList : Type := {
  allItems : list string;
  selectItem : list string;
  allowMultiSelection : bool
}.

Record Button : Type := {
  label : string;
  command : Callback;
  backgroundColor : Color
}.

Record UI : Type := {
  ui_source_list : TextScrollList;
  ui_target_list : TextScrollList;
  ui_copy_button : Button;
  ui_toggle_button : Button
}.

Definition get_list (lw : ListWidget) (u : UI) : TextScrollList :=
  match lw with
  | source_list => ui_source_list u
  | target_list => ui_target_list u
  end.

Definition set_list (lw : ListWidget) (t : TextScrollList) (u : UI) : UI :=
  match lw with
  | source_list =>
      {| ui_source_list := t; ui_target_list := ui_target_list u;
         ui_copy_button := ui_copy_button u; ui_toggle_button := ui_toggle_button u |}
  | target_list =>
      {| ui_source_list := ui_source_list u; ui_target_list := t;
         ui_copy_button := ui_copy_button u; ui_toggle_button := ui_toggle_button u |}
  end.

Definition get_button (bw : ButtonWidget) (u : UI) : Button :=
  match bw with
  | copy_button => ui_copy_button u
  | toggle_button => ui_toggle_button u
  end.

Definition set_button (bw : ButtonWidget) (b : Button) (u : UI) : UI :=
  match bw with
  | copy_button =>
      {| ui_source_list := ui_source_list u; ui_target_list := ui_target_list u;
         ui_copy_button := b; ui_toggle_button := ui_toggle_button u |}
  | toggle_button =>
      {| ui_source_list := ui_source_list u; ui_target_list := ui_target_list u;
         ui_copy_button := ui_copy_button u; ui_toggle_button := b |}
  end.

(** [textScrollList(e=True, append=obj)]: the item goes to the end; the
    widget does not reject an item it already holds. *)
Definition tsl_append (item : string) (t : TextScrollList) : TextScrollList :=
  {| allItems := allItems t ++ [item];
     selectItem := selectItem t;
     allowMultiSelection := allowMultiSelection t |}.

Fixpoint remove_first (item : string) (l : list string) : list string :=
  match l with
  | [] => []
  | x :: rest => if String.eqb item x then rest else x :: remove_first item rest
  end.

(** [textScrollList(e=True, removeItem=item)]: the first item equal to
    [item] leaves the list (and the selection). *)
Definition tsl_removeItem (item : string) (t : TextScrollList) : TextScrollList :=
  {| allItems := remove_first item (allItems t);
     selectItem := remove_first item (selectItem t);
     allowMultiSelection := allowMultiSelection t |}.

(** [textScrollList(e=True, removeAll=True)] *)
Definition tsl_removeAll (t : TextScrollList) : TextScrollList :=
  {| allItems := []; selectItem := []; allowMultiSelection := allowMultiSelection t |}.

Definition tsl_set_allowMultiSelection (b : bool) (t : TextScrollList) : TextScrollList :=
  {| allItems := allItems t; selectItem := selectItem t; allowMultiSelection := b |}.

(** A list query answers [None] on an empty list. *)
Definition py_list (l : list string) : option (list string) :=
  match l with
  | [] => None
  | _ :: _ => Some l
  end.

(** ** Host commands *)

(** Every call the script makes into [maya.cmds] and [maya.mel], with the
    arguments it passes. *)
Inductive Cmd : Type :=
| MelFindRelatedSkinCluster (obj : string)
    (* mel.eval('findRelatedSkinCluster("%s")' % obj) *)
| CmdError (msg : string)
| CmdWarning (msg : string)
| SkinClusterQueryInf (cluster : string)
    (* cmds.skinCluster(cluster, q=True, inf=True) *)
| SkinClusterBind (joints : option (list string)) (target : string)
    (* cmds.skinCluster(joints, target, tsb=True) *)
| CopySkinWeights (ss ds : string) (noMirror : bool)
                  (surfaceAssociation influenceAssociation : string)
| Select (obj : string)
| LsSelection
    (* cmds.ls(selection=True) *)
| ObjectType (obj : string)
| ListRelatives (obj : string)
    (* cmds.listRelatives(obj, allDescendents=True, type="transform") *)
| TslQueryAllItems (lw : ListWidget)
| TslQuerySelectItem (lw : ListWidget)
| TslAppend (lw : ListWidget) (item : string)
| TslRemoveItem (lw : ListWidget) (item : string)
| TslRemoveAll (lw : ListWidget)
| TslAllowMultiSelection (lw : ListWidget) (b : bool)
| ButtonQueryLabel (bw : ButtonWidget)
| ButtonEditLabel (bw : ButtonWidget) (new_label : string) (cb : Callback) (bg : Color)
    (* cmds.button(bw, e=True, label=..., command=..., backgroundColor=...) *)
| ButtonEditColor (bw : ButtonWidget) (bg : Color).

(** How a call ends: it returns a value, or a Python exception leaves it. *)
Inductive Outcome (A : Type) : Type :=
| Returned (a : A)
| Raised (exn : string).
Arguments Returned {A} a.
Arguments Raised {A} exn.

(** The host application.  The scene and what the scene commands answer
    are the host's; the script only sees the replies.  Queries read the
    scene; the three commands that edit it may also fail, which reaches
    Python as an exception.  [error_raises] tells whether [cmds.error]
    raises after printing its message (Maya's Python binding raises
    [RuntimeError]); the script follows the call with [return], and the
    model covers both behaviours. *)
Record Host : Type := {
  Scene : Type;
  ls_selection : Scene -> list string;
  objectType : Scene -> string -> string;
  listRelatives : Scene -> string -> option (list string);
  findRelatedSkinCluster : Scene -> string -> string;
  skinCluster_influences : Scene -> string -> option (list string);
  skinCluster_bind : Scene -> option (list string) -> string -> Outcome (list string) * Scene;
  copySkinWeights : Scene -> string -> string -> bool -> string -> string -> Outcome unit * Scene;
  select : Scene -> string -> Outcome unit * Scene;
  error_raises : bool
}.

Section Script.

Context {H : Host}.

Record World : Type := {
  scene : Scene H;
  ui : UI;
  history : list Cmd
}.

(** ** The monad of the script *)

Definition M (A : Type) : Type := World -> Outcome A * World.

Definition ret {A : Type} (a : A) : M A := fun w => (Returned a, w).

Definition bind {A B : Type} (m : M A) (k : A -> M B) : M B :=
  fun w =>
    match m w with
    | (Returned a, w') => k a w'
    | (Raised e, w') => (Raised e, w')
    end.

Definition raise {A : Type} (exn : string) : M A := fun w => (Raised exn, w).

Notation "x <- m ;; k" := (bind m (fun x => k))
  (at level 100, m at next level, right associativity).
Notation "m ;; k" := (bind m (fun _ => k))
  (at level 100, right associativity).

(** [for x in xs: body(x)]; an exception in the body ends the loop. *)
Fixpoint for_each {A : Type} (xs : list A) (body : A -> M unit) : M unit :=
  match xs with
  | [] => ret tt
  | x :: rest => body x ;; for_each rest body
  end.

Definition log (c : Cmd) (w : World) : World :=
  {| scene := scene w; ui := ui w; history := history w ++ [c] |}.

(** A command that reads the scene. *)
Definition scene_query {A : Type} (c : Cmd) (f : Scene H -> A) : M A :=
  fun w => (Returned (f (scene w)), log c w).

(** A command that edits the scene. *)
Definition scene_edit {A : Type} (c : Cmd) (f : Scene H -> Outcome A * Scene H) : M A :=
  fun w =>
    let '(o, s) := f (scene w) in
    (o, {| scene := s; ui := ui w; history := history w ++ [c] |}).

(** A command that reads a widget. *)
Definition ui_query {A : Type} (c : Cmd) (f : UI -> A) : M A :=
  fun w => (Returned (f (ui w)), log c w).

(** A command that edits a widget. *)
Definition ui_edit (c : Cmd) (f : UI -> UI) : M unit :=
  fun w => (Returned tt, {| scene := scene w; ui := f (ui w); history := history w ++ [c] |}).

(** ** The commands the script calls *)

Definition mel_findRelatedSkinCluster (obj : string) : M string :=
  scene_query (MelFindRelatedSkinCluster obj) (fun s => findRelatedSkinCluster H s obj).

Definition cmds_warning (msg : string) : M unit :=
  fun w => (Returned tt, log (CmdWarning msg) w).

Definition cmds_error (msg : string) : M unit :=
  fun w => (if error_raises H then Raised "RuntimeError" else Returned tt,
            log (CmdError msg) w).

Definition cmds_skinCluster_query_inf (cluster : string) : M (option (list string)) :=
  scene_query (SkinClusterQueryInf cluster) (fun s => skinCluster_influences H s cluster).

Definition cmds_skinCluster_bind (joints : option (list string)) (target : string)
  : M (list string) :=
  scene_edit (SkinClusterBind joints target) (fun s => skinCluster_bind H s joints target).

Definition cmds_copySkinWeights (ss ds : string) (noMirror : bool) (sa ia : string) : M unit :=
  scene_edit (CopySkinWeights ss ds noMirror sa ia)
             (fun s => copySkinWeights H s ss ds noMirror sa ia).

Definition cmds_select (obj : string) : M unit :=
  scene_edit (Select obj) (fun s => select H s obj).

Definition cmds_ls_selection : M (list string) :=
  scene_query LsSelection (ls_selection H).

Definition cmds_objectType (obj : string) : M string :=
  scene_query (ObjectType obj) (fun s => objectType H s obj).

Definition cmds_listRelatives (obj : string) : M (option (list string)) :=
  scene_query (ListRelatives obj) (fun s => listRelatives H s obj).

Definition tsl_query_allItems (lw : ListWidget) : M (option (list string)) :=
  ui_query (TslQueryAllItems lw) (fun u => py_list (allItems (get_list lw u))).

Definition tsl_query_selectItem (lw : ListWidget) : M (option (list string)) :=
  ui_query (TslQuerySelectItem lw) (fun u => py_list (selectItem (get_list lw u))).

Definition tsl_edit_append (lw : ListWidget) (item : string) : M unit :=
  ui_edit (TslAppend lw item) (fun u => set_list lw (tsl_append item (get_list lw u)) u).

Definition tsl_edit_removeItem (lw : ListWidget) (item : string) : M unit :=
  ui_edit (TslRemoveItem lw item) (fun u => set_list lw (tsl_removeItem item (get_list lw u)) u).

Definition tsl_edit_removeAll (lw : ListWidget) : M unit :=
  ui_edit (TslRemoveAll lw) (fun u => set_list lw (tsl_removeAll (get_list lw u)) u).

Definition tsl_edit_allowMultiSelection (lw : ListWidget) (b : bool) : M unit :=
  ui_edit (TslAllowMultiSelection lw b)
          (fun u => set_list lw (tsl_set_allowMultiSelection b (get_list lw u)) u).

Definition button_query_label (bw : ButtonWidget) : M string :=
  ui_query (ButtonQueryLabel bw) (fun u => label (get_button bw u)).

Definition button_edit_label (bw : ButtonWidget) (l : string) (cb : Callback) (bg : Color)
  : M unit :=
  ui_edit (ButtonEditLabel bw l cb bg)
          (fun u => set_button bw {| label := l; command := cb; backgroundColor := bg |} u).

Definition button_edit_color (bw : ButtonWidget) (bg : Color) : M unit :=
  ui_edit (ButtonEditColor bw bg)
          (fun u => set_button bw {| label := label (get_button bw u);
                                     command := command (get_button bw u);
                                     backgroundColor := bg |} u).

(** [xs[0]] *)
Definition index0 (xs : list string) : M string :=
  match xs with
  | [] => raise "IndexError"
  | x :: _ => ret x
  end.

(** ** copy_skin_weights (lines 4-29) *)

Definition copy_skin_weights (source target : string) : M unit :=
  source_skin_cluster <- mel_findRelatedSkinCluster source ;;
  if negb (str_truthy source_skin_cluster) then
    cmds_error "Source object has no skin cluster."
    (* return *)
  else
    target_skin_cluster <- mel_findRelatedSkinCluster target ;;
    target_skin_cluster <-
      (if negb (str_truthy target_skin_cluster) then
         joints <- cmds_skinCluster_query_inf source_skin_cluster ;;
         bound <- cmds_skinCluster_bind joints target ;;
         index0 bound
       else ret target_skin_cluster) ;;
    cmds_copySkinWeights source_skin_cluster target_skin_cluster true
                         "closestPoint" "closestJoint" ;;
    cmds_select target ;;
    cmds_warning ("Skin weights copied from " ++ source ++ " to " ++ target ++ ".")%string.

(** ** The list callbacks *)

(** Lines 38-40 and 68-70: each object is tested against [existing_items],
    the items read once before the loop. *)
Definition append_missing (lw : ListWidget) (existing_items objs : list string) : M unit :=
  for_each objs (fun obj =>
    if negb (py_in obj existing_items) then tsl_edit_append lw obj else ret tt).

(** add_to_source (lines 31-42) *)
Definition add_to_source : M unit :=
  selected <- cmds_ls_selection ;;
  match selected with
  | _ :: _ =>
      existing_items <- tsl_query_allItems source_list ;;
      append_missing source_list (or_empty existing_items) selected
  | [] => cmds_warning "No object selected."
  end.

(** Lines 53-64: the loop that fills [all_objects_to_add]. *)
Fixpoint collect_objects (selected all_objects_to_add : list string) : M (list string) :=
  match selected with
  | [] => ret all_objects_to_add
  | obj :: rest =>
      ty <- cmds_objectType obj ;;
      if String.eqb ty "transform" then
        children <- cmds_listRelatives obj ;;
        if list_truthy children then
          collect_objects rest (all_objects_to_add ++ or_empty children)
        else
          collect_objects rest (all_objects_to_add ++ [obj])
      else
        collect_objects rest (all_objects_to_add ++ [obj])
  end.

(** add_to_target (lines 44-73) *)
Definition add_to_target : M unit :=
  selected <- cmds_ls_selection ;;
  match selected with
  | _ :: _ =>
      all_objects_to_add <- collect_objects selected [] ;;
      existing_items <- tsl_query_allItems target_list ;;
      append_missing target_list (or_empty existing_items) all_objects_to_add
  | [] => cmds_warning "No object selected."
  end.

(** Lines 79-84 and 90-95, which differ in the widget only. *)
Definition remove_selected_from (lw : ListWidget) : M unit :=
  selected_items <- tsl_query_selectItem lw ;;
  if list_truthy selected_items then
    for_each (or_empty selected_items) (fun item => tsl_edit_removeItem lw item)
  else
    cmds_warning "No item selected in the list.".

Definition remove_selected_from_source : M unit := remove_selected_from source_list.
Definition remove_selected_from_target : M unit := remove_selected_from target_list.

(** copy_weights_button_pressed (lines 97-114) *)
Definition copy_weights_button_pressed : M unit :=
  source_items <- tsl_query_allItems source_list ;;
  target_items <- tsl_query_allItems target_list ;;
  if negb (list_truthy source_items) then
    cmds_warning "Please add a source object to Column A."
  else if negb (list_truthy target_items) then
    cmds_warning "Please add at least one target object to Column B."
  else
    source <- index0 (or_empty source_items) ;;
    for_each (or_empty target_items) (fun target => copy_skin_weights source target).

(** copy_weights_one_to_one (lines 116-134) *)
Definition copy_weights_one_to_one : M unit :=
  source_items <- tsl_query_allItems source_list ;;
  target_items <- tsl_query_allItems target_list ;;
  if negb (list_truthy source_items) then
    cmds_warning "Please add at least one source object to Column A."
  else if negb (list_truthy target_items) then
    cmds_warning "Please add at least one target object to Column B."
  else if negb (Nat.eqb (List.length (or_empty source_items)) (List.length (or_empty target_items))) then
    cmds_warning "The number of objects in Column A and Column B must be the same."
  else
    for_each (combine (or_empty source_items) (or_empty target_items))
             (fun st => copy_skin_weights (fst st) (snd st)).

(** clear_source_list, clear_target_list (lines 136-146) *)
Definition clear_source_list : M unit := tsl_edit_removeAll source_list.
Definition clear_target_list : M unit := tsl_edit_removeAll target_list.

(** toggle_mode (lines 148-160) *)
Definition toggle_mode : M unit :=
  current_mode <- button_query_label copy_button ;;
  if String.eqb current_mode "Copy Skin Weights (Single Source)" then
    button_edit_label copy_button "Copy Skin Weights (One-to-One)"
                      cb_copy_weights_one_to_one orange ;;
    button_edit_color toggle_button orange ;;
    tsl_edit_allowMultiSelection source_list true
  else
    button_edit_label copy_button "Copy Skin Weights (Single Source)"
                      cb_copy_weights_button_pressed sky_blue ;;
    button_edit_color toggle_button sky_blue ;;
    tsl_edit_allowMultiSelection source_list false.

(** Lines 166-171 and 177-182, which differ in the widget only. *)
Definition sort_column (lw : ListWidget) : M unit :=
  items <- tsl_query_allItems lw ;;
  if list_truthy items then
    let sorted_items := sorted (or_empty items) in
    tsl_edit_removeAll lw ;;
    for_each sorted_items (fun item => tsl_edit_append lw item)
  else ret tt.

Definition sort_column_a : M unit := sort_column source_list.
Definition sort_column_b : M unit := sort_column target_list.

(** What the host runs when a button bound to [cb] is pressed. *)
Definition dispatch (cb : Callback) : M unit :=
  match cb with
  | cb_add_to_source => add_to_source
  | cb_add_to_target => add_to_target
  | cb_remove_selected_from_source => remove_selected_from_source
  | cb_remove_selected_from_target => remove_selected_from_target
  | cb_copy_weights_button_pressed => copy_weights_button_pressed
  | cb_copy_weights_one_to_one => copy_weights_one_to_one
  | cb_clear_source_list => clear_source_list
  | cb_clear_target_list => clear_target_list
  | cb_toggle_mode => toggle_mode
  | cb_sort_column_a => sort_column_a
  | cb_sort_column_b => sort_column_b
  end.

(** The widgets as [create_ui] leaves them (lines 196, 205, 217, 230). *)
Definition create_ui : UI :=
  {| ui_source_list := {| allItems := []; selectItem := []; allowMultiSelection := true |};
     ui_target_list := {| allItems := []; selectItem := []; allowMultiSelection := true |};
     ui_copy_button := {| label := "Copy Skin Weights (Single Source)";
                          command := cb_copy_weights_button_pressed;
                          backgroundColor := sky_blue |};
     ui_toggle_button := {| label := "Toggle Mode (Single/Multiple Source)";
                            command := cb_toggle_mode;
                            backgroundColor := sky_blue |} |}.

(** ** Observations on a run *)

(** The commands issued between world [w] and a later world [w']. *)
Definition issued (w w' : World) : list Cmd :=
  skipn (List.length (history w)) (history w').

Definition is_copySkinWeights (c : Cmd) : bool :=
  match c with CopySkinWeights _ _ _ _ _ => true | _ => false end.

Definition is_bind (c : Cmd) : bool :=
  match c with SkinClusterBind _ _ => true | _ => false end.

Definition is_warning (c : Cmd) : bool :=
  match c with CmdWarning _ => true | _ => false end.

Definition is_append (c : Cmd) : bool :=
  match c with TslAppend _ _ => true | _ => false end.

(** The commands that only read the scene or the widgets. *)
Definition is_query (c : Cmd) : bool :=
  match c with
  | MelFindRelatedSkinCluster _ | SkinClusterQueryInf _ | LsSelection
  | ObjectType _ | ListRelatives _ | TslQueryAllItems _ | TslQuerySelectItem _
  | ButtonQueryLabel _ => true
  | _ => false
  end.

(** The same world with another history. *)
Definition with_history (h : list Cmd) (w : World) : World :=
  {| scene := scene w; ui := ui w; history := h |}.

(** The same world with other widgets. *)
Definition with_ui (u : UI) (w : World) : World :=
  {| scene := scene w; ui := u; history := history w |}.

(** The object names the two lists hold. *)
Definition list_items (u : UI) : list string * list string :=
  (allItems (ui_source_list u), allItems (ui_target_list u)).

(** The tool state the widgets keep besides the two lists' strings: both
    buttons (label, bound callback, colour) and the lists' selection mode. *)
Definition beside_lists (u : UI) : Button * Button * bool * bool :=
  (ui_copy_button u, ui_toggle_button u,
   allowMultiSelection (ui_source_list u), allowMultiSelection (ui_target_list u)).

(** World [w] after [xs] have been appended to list [lw]. *)
Definition appended (lw : ListWidget) (xs : list string) (w : World) : World :=
  {| scene := scene w;
     ui := set_list lw {| allItems := allItems (get_list lw (ui w)) ++ xs;
                          selectItem := selectItem (get_list lw (ui w));
                          allowMultiSelection := allowMultiSelection (get_list lw (ui w)) |}
                    (ui w);
     history := history w ++ map (TslAppend lw) xs |}.

(** "Once per item": [body] is invoked on every item of [xs] in order,
    each invocation starting where the one before stopped, however that
    one ended.  This is the loop as the sentence "invokes [body] once per
    item" reads; [for_each] is the loop the script has. *)
Fixpoint run_all {A : Type} (body : A -> M unit) (xs : list A) (w : World) : World :=
  match xs with
  | [] => w
  | x :: rest => run_all body rest (snd (body x w))
  end.

(** The commands that carry out the action of a callback, as opposed to
    the queries and warnings around them. *)
Definition forwards (cb : Callback) (c : Cmd) : bool :=
  match cb, c with
  | cb_add_to_source, TslAppend source_list _ => true
  | cb_add_to_target, TslAppend target_list _ => true
  | cb_remove_selected_from_source, TslRemoveItem source_list _ => true
  | cb_remove_selected_from_target, TslRemoveItem target_list _ => true
  | (cb_copy_weights_button_pressed | cb_copy_weights_one_to_one),
    (SkinClusterBind _ _ | CopySkinWeights _ _ _ _ _ | Select _ | CmdError _) => true
  | cb_clear_source_list, TslRemoveAll source_list => true
  | cb_clear_target_list, TslRemoveAll target_list => true
  | cb_toggle_mode,
    (ButtonEditLabel copy_button _ _ _ | ButtonEditColor toggle_button _
     | TslAllowMultiSelection source_list _) => true
  | cb_sort_column_a, (TslRemoveAll source_list | TslAppend source_list _) => true
  | cb_sort_column_b, (TslRemoveAll target_list | TslAppend target_list _) => true
  | _, _ => false
  end.

(** ** Properties of computations *)

(** [m] neither reads nor rewrites the history; it only appends to it. *)
Definition framed {A : Type} (m : M A) : Prop :=
  forall h w,
    m (with_history (h ++ history w) w)
    = (fst (m w), with_history (h ++ history (snd (m w))) (snd (m w))).

(** [m] neither reads nor edits the widgets. *)
Definition ui_blind {A : Type} (m : M A) : Prop :=
  forall u w, m (with_ui u w) = (fst (m w), with_ui u (snd (m w))).

(** Every run of [m] takes a world to one related to it by [R]. *)
Definition steps (R : World -> World -> Prop) {A : Type} (m : M A) : Prop :=
  forall w, R w (snd (m w)).

(** [w'] is [w] after some more commands, all of which satisfy [P]. *)
Definition emitted (P : Cmd -> bool) (w w' : World) : Prop :=
  exists cmds, history w' = history w ++ cmds /\ forallb P cmds = true.

(** [w'] shows the same [obs] as [w]. *)
Definition kept {X : Type} (obs : World -> X) (w w' : World) : Prop :=
  obs w' = obs w.

(** The mode state of a world. *)
Definition mode_state (w : World) : Button * Button * bool * bool :=
  beside_lists (ui w).

(** The world with the scene of [w], freshly built widgets and no history. *)
Definition bare (w : World) : World :=
  {| scene := scene w; ui := create_ui; history := [] |}.

(** What a callback may issue: queries, warnings, and its own action. *)
Definition allowed (cb : Callback) (c : Cmd) : bool :=
  is_query c || is_warning c || forwards cb c.

(** ** Further observations *)

(** What one selected object contributes to [all_objects_to_add] in
    add_to_target (lines 55-64): a transform with descendant transforms
    contributes those, any other object contributes itself. *)
Definition contribution (s : Scene H) (obj : string) : list string :=
  if String.eqb (objectType H s obj) "transform" then
    if list_truthy (listRelatives H s obj) then or_empty (listRelatives H s obj)
    else [obj]
  else [obj].

(** The items of [l] after [xs] have been removed one by one. *)
Definition remove_each (xs l : list string) : list string :=
  fold_left (fun acc x => remove_first x acc) xs l.

(** World [w] after [xs] have been removed from list [lw]. *)
Definition removed (lw : ListWidget) (xs : list string) (w : World) : World :=
  {| scene := scene w;
     ui := set_list lw {| allItems := remove_each xs (allItems (get_list lw (ui w)));
                          selectItem := remove_each xs (selectItem (get_list lw (ui w)));
                          allowMultiSelection := allowMultiSelection (get_list lw (ui w)) |}
                    (ui w);
     history := history w ++ map (TslRemoveItem lw) xs |}.

(** The list a callback works on; the copy callbacks work on neither. *)
Definition list_of (cb : Callback) : option ListWidget :=
  match cb with
  | cb_add_to_source | cb_remove_selected_from_source | cb_clear_source_list
  | cb_sort_column_a | cb_toggle_mode => Some source_list
  | cb_add_to_target | cb_remove_selected_from_target | cb_clear_target_list
  | cb_sort_column_b => Some target_list
  | cb_copy_weights_button_pressed | cb_copy_weights_one_to_one => None
  end.

Definition is_copy_callback (cb : Callback) : bool :=
  match cb with
  | cb_copy_weights_button_pressed | cb_copy_weights_one_to_one => true
  | _ => false
  end.

(** The two states the mode widgets are meant to be in: the copy button's
    label, the callback bound to it and the colours of both buttons say
    the same mode. *)
Definition single_source_mode (u : UI) : Prop :=
  ui_copy_button u
  = {| label := "Copy Skin Weights (Single Source)";
       command := cb_copy_weights_button_pressed;
       backgroundColor := sky_blue |}
  /\ backgroundColor (ui_toggle_button u) = sky_blue.

Definition one_to_one_mode (u : UI) : Prop :=
  ui_copy_button u
  = {| label := "Copy Skin Weights (One-to-One)";
       command := cb_copy_weights_one_to_one;
       backgroundColor := orange |}
  /\ backgroundColor (ui_toggle_button u) = orange.

Definition mode_consistent (u : UI) : Prop :=
  (single_source_mode u \/ one_to_one_mode u)
  /\ label (ui_toggle_button u) = "Toggle Mode (Single/Multiple Source)"
  /\ command (ui_toggle_button u) = cb_toggle_mode.

(** The host runs the callbacks one after the other as the buttons are
    pressed; a callback that ended in an exception does not stop the next
    one from running. *)
Definition run_callbacks (cbs : list Callback) (w : World) : World :=
  run_all dispatch cbs w.

(** The success message of copy_skin_weights (line 29). *)
Definition copied_message (source target : string) : string :=
  ("Skin weights copied from " ++ source ++ " to " ++ target ++ ".")%string.

(** ** The host's part in a run *)

(** What a command does to the scene, by the host's own functions: the
    three scene-editing commands act as the host says, every other command
    leaves the scene alone. *)
Definition host_effect (c : Cmd) (s : Scene H) : Scene H :=
  match c with
  | SkinClusterBind joints target => snd (skinCluster_bind H s joints target)
  | CopySkinWeights ss ds noMirror sa ia => snd (copySkinWeights H s ss ds noMirror sa ia)
  | Select obj => snd (select H s obj)
  | _ => s
  end.

(** The scene the host reaches from [s] by running [cmds] in order. *)
Definition replay (cmds : list Cmd) (s : Scene H) : Scene H :=
  fold_left (fun acc c => host_effect c acc) cmds s.

(** [w'] is [w] after some more commands, and its scene is the one the
    host reaches by running exactly those commands: nothing but the
    host's commands has touched the scene, and every scene-editing
    command in the history has been run by the host. *)
Definition replayed (w w' : World) : Prop :=
  exists cmds, history w' = history w ++ cmds /\ scene w' = replay cmds (scene w).

(** Every invocation of [body] on the items of [xs], run one after the
    other from [w], returns. *)
Fixpoint all_returned {A : Type} (body : A -> M unit) (xs : list A) (w : World) : Prop :=
  match xs with
  | [] => True
  | x :: rest => fst (body x w) = Returned tt /\ all_returned body rest (snd (body x w))
  end.

(** How a loop over [xs] that started in [w] ended in outcome [o] and
    world [w']: either every invocation returned, or the invocations on
    an initial segment [done] returned, the one on the next item raised,
    and the loop ended right there in that exception. *)
Definition loop_ended {A : Type} (body : A -> M unit) (xs : list A) (w : World)
  (o : Outcome unit) (w' : World) : Prop :=
  (o = Returned tt /\ all_returned body xs w /\ w' = run_all body xs w)
  \/ (exists done x rest e,
        xs = done ++ x :: rest
        /\ all_returned body done w
        /\ body x (run_all body done w) = (Raised e, w')
        /\ o = Raised e).

(** The part of the widget state a callback reads besides the items of
    the two lists: the remove callbacks read the selected items of their
    list, toggle_mode reads the copy button's label, the others nothing. *)
Definition also_reads (cb : Callback) (u : UI) : list string * list string * string :=
  match cb with
  | cb_remove_selected_from_source => (selectItem (ui_source_list u), [], "")
  | cb_remove_selected_from_target => ([], selectItem (ui_target_list u), "")
  | cb_toggle_mode => ([], [], label (ui_copy_button u))
  | _ => ([], [], "")
  end.

(** Two worlds look the same to callback [cb]: same scene, same items in
    both lists, and the same extra part that [cb] reads. *)
Definition same_to (cb : Callback) (w1 w2 : World) : Prop :=
  scene w1 = scene w2
  /\ list_items (ui w1) = list_items (ui w2)
  /\ also_reads cb (ui w1) = also_reads cb (ui w2).

(** [m] run from two worlds related by [R] ends the same way, issues the
    same commands and leaves worlds related by [R]. *)
Definition alike (R : World -> World -> Prop) {A : Type} (m : M A) : Prop :=
  forall w1 w2,
    R w1 w2 ->
    fst (m w1) = fst (m w2)
    /\ R (snd (m w1)) (snd (m w2))
    /\ exists cmds,
         history (snd (m w1)) = history w1 ++ cmds
         /\ history (snd (m w2)) = history w2 ++ cmds.

End Script.

Arguments World H : clear implicits.
Arguments M H A : clear implicits.

(** ** A small concrete host

    A scene with just enough structure to run the script on: which
    transforms have which descendant transforms, which objects are bound
    to which skin cluster, and a record of the weight copies the host has
    performed.  Binding [target] creates the cluster
    ["skinCluster_" ++ target]; no scene command fails. *)

Record ToyScene : Type := {
  toy_selection : list string;
  toy_transforms : list (string * list string);
  toy_skin : list (string * string);
  toy_copies : list (string * string)
}.

Fixpoint assoc {A : Type} (k : string) (l : list (string * A)) : option A :=
  match l with
  | [] => None
  | (k', v) :: rest => if String.eqb k k' then Some v else assoc k rest
  end.

Definition toy_objectType (s : ToyScene) (obj : string) : string :=
  match assoc obj (toy_transforms s) with
  | Some _ => "transform"
  | None => "mesh"
  end.

Definition toy_listRelatives (s : ToyScene) (obj : string) : option (list string) :=
  match assoc obj (toy_transforms s) with
  | Some children => py_list children
  | None => None
  end.

Definition toy_findRelatedSkinCluster (s : ToyScene) (obj : string) : string :=
  match assoc obj (toy_skin s) with
  | Some c => c
  | None => ""
  end.

Definition toy_bind (s : ToyScene) (joints : option (list string)) (target : string)
  : Outcome (list string) * ToyScene :=
  let c := ("skinCluster_" ++ target)%string in
  (Returned [c],
   {| toy_selection := toy_selection s; toy_transforms := toy_transforms s;
      toy_skin := (target, c) :: toy_skin s; toy_copies := toy_copies s |}).

Definition toy_copySkinWeights (s : ToyScene) (ss ds : string) (noMirror : bool)
  (sa ia : string) : Outcome unit * ToyScene :=
  (Returned tt,
   {| toy_selection := toy_selection s; toy_transforms := toy_transforms s;
      toy_skin := toy_skin s; toy_copies := toy_copies s ++ [(ss, ds)] |}).

Definition toy_select (s : ToyScene) (obj : string) : Outcome unit * ToyScene :=
  (Returned tt,
   {| toy_selection := [obj]; toy_transforms := toy_transforms s;
      toy_skin := toy_skin s; toy_copies := toy_copies s |}).

Definition toy_host (raises : bool) : Host :=
  {| Scene := ToyScene;
     ls_selection := toy_selection;
     objectType := toy_objectType;
     listRelatives := toy_listRelatives;
     findRelatedSkinCluster := toy_findRelatedSkinCluster;
     skinCluster_influences := fun _ _ => Some ["joint1"; "joint2"];
     skinCluster_bind := toy_bind;
     copySkinWeights := toy_copySkinWeights;
     select := toy_select;
     error_raises := raises |}.

(** A world of the toy host: a scene, the two lists, nothing issued yet. *)
Definition toy_world (raises : bool) (s : ToyScene) (sources targets : list string)
  : World (toy_host raises) :=
  {| scene := (s : Scene (toy_host raises));
     ui := set_list source_list
             {| allItems := sources; selectItem := []; allowMultiSelection := true |}
             (set_list target_list
                {| allItems := targets; selectItem := []; allowMultiSelection := true |}
                create_ui);
     history := [] |}.

(** The character, its clothes in a group, and one skin cluster on the body. *)
Definition wardrobe (sel : list string) : ToyScene :=
  {| toy_selection := sel;
     toy_transforms := [("clothes", ["shirt"; "pants"]); ("shirt", []); ("pants", []);
                        ("body", [])];
     toy_skin := [("body", "skinCluster1")];
     toy_copies := [] |}.

(** The same scene before anything is bound. *)
Definition unbound (sel : list string) : ToyScene :=
  {| toy_selection := sel;
     toy_transforms := [("clothes", ["shirt"; "pants"]); ("shirt", []); ("pants", []);
                        ("body", [])];
     toy_skin := [];
     toy_copies := [] |}.

(** A world of the toy host with "shirt" selected in the target list. *)
Definition shirt_selected : World (toy_host true) :=
  with_ui (set_list target_list
             {| allItems := ["shirt"; "pants"; "body"]; selectItem := ["shirt"];
                allowMultiSelection := true |}
             create_ui)
          (toy_world true (wardrobe []) [] []).

(** * Properties *)

Section Facts.

Context {H : Host}.
Implicit Types (w : World H) (c : Cmd) (cmds : list Cmd).

(** ** Sorting *)

Lemma insert_sorted_perm x l : Permutation (x :: l) (insert_sorted x l).
Proof.
  induction l as [|y l IH]; simpl.
  - reflexivity.
  - destruct (String.leb x y).
    + reflexivity.
    + rewrite perm_swap. now apply perm_skip.
Qed.

Lemma sorted_perm l : Permutation l (sorted l).
Proof.
  induction l as [|x l IH]; simpl.
  - constructor.
  - rewrite <- insert_sorted_perm. now apply perm_skip.
Qed.

Lemma insert_sorted_Sorted x l : Sorted le_str l -> Sorted le_str (insert_sorted x l).
Proof.
  induction 1 as [|y l Hl IH Hy]; simpl.
  - repeat constructor.
  - destruct (String.leb x y) eqn:E.
    + constructor; [now constructor | now constructor].
    + constructor; [exact IH|].
      assert (Hyx : le_str y x).
      { destruct (String.leb_total x y) as [G|G]; [congruence | exact G]. }
      destruct Hy as [|z l' Hz]; simpl.
      * now constructor.
      * destruct (String.leb x z); now constructor.
Qed.

Lemma sorted_Sorted l : Sorted le_str (sorted l).
Proof.
  induction l; simpl; [constructor | now apply insert_sorted_Sorted].
Qed.

Lemma sorted_fixed l : Sorted le_str l -> sorted l = l.
Proof.
  induction 1 as [|x l Hl IH Hx]; simpl; [reflexivity|].
  rewrite IH. destruct Hx as [|y l' Hy]; simpl; [reflexivity|].
  unfold le_str in Hy. now rewrite Hy.
Qed.

Lemma sorted_idem l : sorted (sorted l) = sorted l.
Proof. apply sorted_fixed, sorted_Sorted. Qed.

Lemma le_str_trans (s1 s2 s3 : string) : le_str s1 s2 -> le_str s2 s3 -> le_str s1 s3.
Proof.
  unfold le_str, String.leb. revert s2 s3.
  induction s1 as [|x s1 IH]; intros [|y s2] [|z s3]; simpl; try easy.
  unfold Ascii.compare.
  destruct (N.compare_spec (N_of_ascii x) (N_of_ascii y)) as [Exy|Lxy|Gxy];
    destruct (N.compare_spec (N_of_ascii y) (N_of_ascii z)) as [Eyz|Lyz|Gyz];
    try easy.
  - rewrite Exy, Eyz, N.compare_refl. apply IH.
  - rewrite Exy. apply N.compare_lt_iff in Lyz. now rewrite Lyz.
  - rewrite <- Eyz. apply N.compare_lt_iff in Lxy. now rewrite Lxy.
  - assert (L : (N_of_ascii x < N_of_ascii z)%N) by lia.
    apply N.compare_lt_iff in L. now rewrite L.
Qed.

Lemma le_str_antisym (s1 s2 : string) : le_str s1 s2 -> le_str s2 s1 -> s1 = s2.
Proof. apply String.leb_antisym. Qed.

(** Two ascending lists with the same items are the same list. *)
Lemma Sorted_perm_unique l1 l2 :
  Sorted le_str l1 -> Sorted le_str l2 -> Permutation l1 l2 -> l1 = l2.
Proof.
  intros S1 S2.
  apply Sorted_StronglySorted in S1; [|exact le_str_trans].
  apply Sorted_StronglySorted in S2; [|exact le_str_trans].
  revert l2 S2. induction S1 as [|x l1 S1 IH Hx]; intros l2 S2 P.
  - apply Permutation_nil in P. now subst.
  - destruct S2 as [|y l2 S2 Hy].
    + symmetry in P. apply Permutation_nil in P. discriminate.
    + assert (E : x = y).
      { assert (Ix : In x (y :: l2)) by (apply (Permutation_in _ P); now left).
        assert (Iy : In y (x :: l1))
          by (apply (Permutation_in _ (Permutation_sym P)); now left).
        destruct Ix as [->|Ix]; [reflexivity|].
        destruct Iy as [->|Iy]; [reflexivity|].
        rewrite Forall_forall in Hx, Hy.
        apply le_str_antisym; [now apply Hx | now apply Hy]. }
      subst y. f_equal. apply IH; [exact S2|].
      now apply Permutation_cons_inv in P.
Qed.

(** [sorted l] is the one ascending arrangement of the items of [l]. *)
Lemma sorted_unique l l' : Permutation l l' -> Sorted le_str l' -> l' = sorted l.
Proof.
  intros P S. apply Sorted_perm_unique; [exact S | apply sorted_Sorted |].
  rewrite <- P. apply sorted_perm.
Qed.

(** ** Histories *)

Lemma issued_app w w' cmds : history w' = history w ++ cmds -> issued w w' = cmds.
Proof.
  unfold issued. intros ->.
  rewrite skipn_app, skipn_all, Nat.sub_diag. reflexivity.
Qed.

(** ** Composing runs *)

Section Steps.

Variable R : World H -> World H -> Prop.
Hypothesis R_refl : forall w, R w w.
Hypothesis R_trans : forall w1 w2 w3, R w1 w2 -> R w2 w3 -> R w1 w3.

Lemma steps_ret {A : Type} (a : A) : steps R (ret a).
Proof. intros w. apply R_refl. Qed.

Lemma steps_raise {A : Type} e : steps R (@raise H A e).
Proof. intros w. apply R_refl. Qed.

Lemma steps_bind {A B : Type} (m : M H A) (k : A -> M H B) :
  steps R m -> (forall a, steps R (k a)) -> steps R (bind m k).
Proof.
  intros Hm Hk w. unfold bind. specialize (Hm w).
  destruct (m w) as [[a|e] w1]; simpl in *.
  - eapply R_trans; [exact Hm | apply Hk].
  - exact Hm.
Qed.

Lemma steps_for_each {A : Type} (xs : list A) (body : A -> M H unit) :
  (forall x, steps R (body x)) -> steps R (for_each xs body).
Proof.
  intros Hb. induction xs as [|x xs IH]; simpl.
  - apply steps_ret.
  - apply steps_bind; [apply Hb | intros _; exact IH].
Qed.

Lemma steps_index0 xs : steps R (index0 xs).
Proof. destruct xs; [apply steps_raise | apply steps_ret]. Qed.

End Steps.

Lemma emitted_refl P w : emitted P w w.
Proof. exists []. now rewrite app_nil_r. Qed.

Lemma emitted_trans P w1 w2 w3 : emitted P w1 w2 -> emitted P w2 w3 -> emitted P w1 w3.
Proof.
  intros (c1 & E1 & F1) (c2 & E2 & F2). exists (c1 ++ c2). split.
  - now rewrite E2, E1, app_assoc.
  - rewrite forallb_app, F1, F2. reflexivity.
Qed.

Lemma emitted_one P w w' c : history w' = history w ++ [c] -> P c = true -> emitted P w w'.
Proof. intros E Hc. exists [c]. simpl. now rewrite Hc. Qed.

Lemma kept_refl {X : Type} (obs : World H -> X) w : kept obs w w.
Proof. reflexivity. Qed.

Lemma kept_trans {X : Type} (obs : World H -> X) w1 w2 w3 :
  kept obs w1 w2 -> kept obs w2 w3 -> kept obs w1 w3.
Proof. unfold kept. congruence. Qed.

(** ** The history is write-only *)

Lemma framed_ret {A : Type} (a : A) : framed (@ret H A a).
Proof. intros h w. reflexivity. Qed.

Lemma framed_raise {A : Type} e : framed (@raise H A e).
Proof. intros h w. reflexivity. Qed.

Lemma framed_bind {A B : Type} (m : M H A) (k : A -> M H B) :
  framed m -> (forall a, framed (k a)) -> framed (bind m k).
Proof.
  intros Hm Hk h w. unfold bind. rewrite Hm.
  destruct (m w) as [[a|e] w1]; simpl.
  - apply Hk.
  - reflexivity.
Qed.

Lemma framed_for_each {A : Type} (xs : list A) (body : A -> M H unit) :
  (forall x, framed (body x)) -> framed (for_each xs body).
Proof.
  intros Hb. induction xs as [|x xs IH]; simpl.
  - apply framed_ret.
  - apply framed_bind; [apply Hb | intros _; exact IH].
Qed.

Lemma framed_scene_query {A : Type} c (f : Scene H -> A) : framed (scene_query c f).
Proof.
  intros h w. unfold scene_query, log, with_history. simpl. now rewrite app_assoc.
Qed.

Lemma framed_scene_edit {A : Type} c (f : Scene H -> Outcome A * Scene H) :
  framed (scene_edit c f).
Proof.
  intros h w. unfold scene_edit, with_history. simpl.
  destruct (f (scene w)) as [o s]. simpl. now rewrite app_assoc.
Qed.

Lemma framed_ui_query {A : Type} c (f : UI -> A) : framed (@ui_query H A c f).
Proof.
  intros h w. unfold ui_query, log, with_history. simpl. now rewrite app_assoc.
Qed.

Lemma framed_ui_edit c (f : UI -> UI) : framed (@ui_edit H c f).
Proof.
  intros h w. unfold ui_edit, with_history. simpl. now rewrite app_assoc.
Qed.

Lemma framed_warning msg : framed (@cmds_warning H msg).
Proof.
  intros h w. unfold cmds_warning, log, with_history. simpl. now rewrite app_assoc.
Qed.

Lemma framed_error msg : framed (@cmds_error H msg).
Proof.
  intros h w. unfold cmds_error, log, with_history. simpl. now rewrite app_assoc.
Qed.

Lemma framed_index0 xs : framed (@index0 H xs).
Proof. destruct xs; [apply framed_raise | apply framed_ret]. Qed.

Ltac framed_step :=
  first
    [ apply framed_ret | apply framed_raise | apply framed_index0
    | apply framed_warning | apply framed_error
    | apply framed_scene_query | apply framed_scene_edit
    | apply framed_ui_query | apply framed_ui_edit
    | apply framed_bind; [|intros ?]
    | apply framed_for_each; intros ?
    | match goal with
      | |- framed (if ?b then _ else _) => destruct b
      | |- framed (match ?x with _ => _ end) => destruct x
      end ].

Lemma framed_copy_skin_weights source target : framed (@copy_skin_weights H source target).
Proof. unfold copy_skin_weights. repeat framed_step. Qed.

Lemma framed_append_missing lw existing objs : framed (@append_missing H lw existing objs).
Proof. unfold append_missing. repeat framed_step. Qed.

Lemma framed_collect_objects selected acc : framed (@collect_objects H selected acc).
Proof.
  revert acc. induction selected as [|obj rest IH]; intros acc; simpl.
  - apply framed_ret.
  - repeat framed_step; apply IH.
Qed.

Lemma framed_dispatch cb : framed (@dispatch H cb).
Proof.
  destruct cb; simpl;
    unfold add_to_source, add_to_target, remove_selected_from_source,
      remove_selected_from_target, remove_selected_from, copy_weights_button_pressed,
      copy_weights_one_to_one, clear_source_list, clear_target_list, toggle_mode,
      sort_column_a, sort_column_b, sort_column;
    repeat first [ apply framed_copy_skin_weights | apply framed_append_missing
                 | apply framed_collect_objects | framed_step ].
Qed.

(** A framed computation run on [w] is its run on [w] with an empty history,
    with the history of [w] put back in front. *)
Lemma framed_run {A : Type} (m : M H A) w :
  framed m ->
  m w = (fst (m (with_history [] w)),
         with_history (history w ++ history (snd (m (with_history [] w))))
                      (snd (m (with_history [] w)))).
Proof.
  intros Hm. rewrite <- (Hm (history w) (with_history [] w)).
  simpl. rewrite app_nil_r. destruct w; reflexivity.
Qed.

Ltac issued_now :=
  apply issued_app; simpl; repeat rewrite <- app_assoc; reflexivity.

(** ** copy_skin_weights without a source skin cluster *)

(** C2.  When the skin-cluster query on the source answers the empty
    string, copy_skin_weights issues that query and the host error
    "Source object has no skin cluster." and nothing else: no bind, no
    weight copy.  The scene and the widgets are as before.  Control leaves
    the function there, through the [return] of line 16 or through the
    exception of a host whose error command raises. *)
Theorem copy_skin_weights_without_source_cluster (source target : string) (w : World H) :
  findRelatedSkinCluster H (scene w) source = "" ->
  let r := copy_skin_weights source target w in
  issued w (snd r)
  = [MelFindRelatedSkinCluster source; CmdError "Source object has no skin cluster."]
  /\ history (snd r) = history w ++ issued w (snd r)
  /\ filter is_bind (issued w (snd r)) = []
  /\ filter is_copySkinWeights (issued w (snd r)) = []
  /\ scene (snd r) = scene w
  /\ ui (snd r) = ui w
  /\ fst r = (if error_raises H then Raised "RuntimeError" else Returned tt).
Proof.
  intros E r. subst r.
  unfold copy_skin_weights, bind, mel_findRelatedSkinCluster, scene_query, cmds_error.
  rewrite E. simpl.
  set (w' := log _ (log _ w)).
  assert (I : issued w w'
              = [MelFindRelatedSkinCluster source;
                 CmdError "Source object has no skin cluster."])
    by (subst w'; issued_now).
  rewrite I. subst w'. simpl. rewrite <- app_assoc. repeat split; reflexivity.
Qed.

(** ** Adding with nothing selected *)

(** C7.  With nothing selected in the scene, add_to_source and
    add_to_target each issue the selection query and the host warning
    "No object selected.", and leave the widgets (so both lists) and the
    scene as they were. *)
Theorem add_with_nothing_selected (w : World H) :
  ls_selection H (scene w) = [] ->
  forall r, r = add_to_source w \/ r = add_to_target w ->
  issued w (snd r) = [LsSelection; CmdWarning "No object selected."]
  /\ history (snd r) = history w ++ issued w (snd r)
  /\ ui (snd r) = ui w
  /\ scene (snd r) = scene w
  /\ fst r = Returned tt.
Proof.
  intros E r Hr.
  assert (Hrun : r = (Returned tt, log (CmdWarning "No object selected.") (log LsSelection w))).
  { destruct Hr as [-> | ->];
      unfold add_to_source, add_to_target, bind, cmds_ls_selection, scene_query;
      rewrite E; reflexivity. }
  subst r. simpl.
  assert (I : issued w (log (CmdWarning "No object selected.") (log LsSelection w))
              = [LsSelection; CmdWarning "No object selected."]) by issued_now.
  rewrite I. simpl. rewrite <- app_assoc. repeat split; reflexivity.
Qed.

(** ** The copy callbacks on lists they cannot use *)

(** C4.  copy_weights_button_pressed with an empty source or target list,
    and copy_weights_one_to_one with an empty source or target list or
    with lists of different lengths, read the two lists once, issue
    exactly one host warning and nothing else (no weight copy, no second
    attempt), and leave the widgets and the scene as they were. *)
Theorem copy_callbacks_warn_once (w : World H) :
  let src := allItems (ui_source_list (ui w)) in
  let tgt := allItems (ui_target_list (ui w)) in
  forall r,
    ((src = [] \/ tgt = []) /\ r = copy_weights_button_pressed w)
    \/ ((src = [] \/ tgt = [] \/ List.length src <> List.length tgt)
        /\ r = copy_weights_one_to_one w) ->
    exists msg,
      issued w (snd r)
      = [TslQueryAllItems source_list; TslQueryAllItems target_list; CmdWarning msg]
      /\ history (snd r) = history w ++ issued w (snd r)
      /\ List.length (filter is_warning (issued w (snd r))) = 1
      /\ filter is_copySkinWeights (issued w (snd r)) = []
      /\ ui (snd r) = ui w
      /\ scene (snd r) = scene w
      /\ fst r = Returned tt.
Proof.
  intros src tgt r Hr.
  assert (Hrun : exists msg,
             r = (Returned tt,
                  log (CmdWarning msg)
                      (log (TslQueryAllItems target_list)
                           (log (TslQueryAllItems source_list) w)))).
  { subst src tgt.
    destruct w as [s [[src sel1 m1] [tgt sel2 m2] b1 b2] h]. simpl in *.
    destruct Hr as [[Hl ->] | [Hl ->]];
      unfold copy_weights_button_pressed, copy_weights_one_to_one, bind,
        tsl_query_allItems, ui_query; simpl.
    - destruct src as [|x src]; [eexists; reflexivity|].
      destruct tgt as [|y tgt]; [eexists; reflexivity|].
      destruct Hl; discriminate.
    - destruct src as [|x src]; [eexists; reflexivity|].
      destruct tgt as [|y tgt]; [eexists; reflexivity|].
      destruct Hl as [Hl | [Hl | Hl]]; try discriminate.
      simpl in *.
      destruct (Nat.eqb_spec (List.length src) (List.length tgt)) as [E|E].
      + exfalso. apply Hl. now rewrite E.
      + simpl. eexists; reflexivity. }
  destruct Hrun as [msg ->]. exists msg. simpl.
  assert (I : issued w (log (CmdWarning msg)
                            (log (TslQueryAllItems target_list)
                                 (log (TslQueryAllItems source_list) w)))
              = [TslQueryAllItems source_list; TslQueryAllItems target_list;
                 CmdWarning msg]) by issued_now.
  rewrite I. simpl. repeat rewrite <- app_assoc. repeat split; reflexivity.
Qed.

(** ** copy_skin_weights delegates the transfer *)

Lemma copy_skin_weights_commands (source target : string) (w : World H) :
  let ss := findRelatedSkinCluster H (scene w) source in
  let tc := findRelatedSkinCluster H (scene w) target in
  let r := copy_skin_weights source target w in
  exists cmds,
    history (snd r) = history w ++ cmds
    /\ (forall c, In c cmds -> is_copySkinWeights c = true ->
          exists ds, c = CopySkinWeights ss ds true "closestPoint" "closestJoint")
    /\ List.length (filter is_copySkinWeights cmds) <= 1
    /\ (fst r = Returned tt -> ss <> "" ->
          List.length (filter is_copySkinWeights cmds) = 1)
    /\ (ss <> "" -> tc <> "" ->
          filter is_copySkinWeights cmds
          = [CopySkinWeights ss tc true "closestPoint" "closestJoint"])
    /\ (ss = "" -> filter is_copySkinWeights cmds = []).
Proof.
  intros ss tc r. subst ss tc r.
  unfold copy_skin_weights, bind, mel_findRelatedSkinCluster, cmds_skinCluster_query_inf,
    cmds_skinCluster_bind, cmds_copySkinWeights, cmds_select, cmds_warning, cmds_error,
    scene_query, scene_edit.
  simpl.
  destruct (findRelatedSkinCluster H (scene w) source) as [|a ss] eqn:Es; simpl.
  - exists [MelFindRelatedSkinCluster source; CmdError "Source object has no skin cluster."].
    split; [now rewrite <- app_assoc|].
    simpl. repeat split; try lia; try congruence.
    intros c [<-|[<-|[]]]; discriminate.
  - destruct (findRelatedSkinCluster H (scene w) target) as [|b tc] eqn:Et; simpl.
    + destruct (skinCluster_bind H (scene w) (skinCluster_influences H (scene w) (String a ss))
                  target) as [[[|ds bound]|e] s1]; simpl.
      * eexists. split; [repeat rewrite <- app_assoc; simpl; reflexivity|].
        simpl. repeat split; try lia; try congruence.
        intros c [<-|[<-|[<-|[<-|[]]]]]; discriminate.
      * destruct (copySkinWeights H s1 (String a ss) ds true "closestPoint" "closestJoint")
          as [[[]|e] s2]; simpl;
          [destruct (select H s2 target) as [[[]|e] s3]; simpl|];
          (eexists; split; [repeat rewrite <- app_assoc; simpl; reflexivity|]);
          simpl; repeat split; try lia; try congruence;
          intros c Hc Hcopy; simpl in Hc;
          repeat (destruct Hc as [<-|Hc]; [try discriminate; eauto|]); destruct Hc.
      * eexists. split; [repeat rewrite <- app_assoc; simpl; reflexivity|].
        simpl. repeat split; try lia; try congruence.
        intros c [<-|[<-|[<-|[<-|[]]]]]; discriminate.
    + destruct (copySkinWeights H (scene w) (String a ss) (String b tc) true
                  "closestPoint" "closestJoint") as [[[]|e] s2]; simpl;
        [destruct (select H s2 target) as [[[]|e] s3]; simpl|];
        (eexists; split; [repeat rewrite <- app_assoc; simpl; reflexivity|]);
        simpl; repeat split; try lia; try congruence;
        intros c Hc Hcopy; simpl in Hc;
        repeat (destruct Hc as [<-|Hc]; [try discriminate; eauto|]); destruct Hc.
Qed.

(** ** Appending to a list widget *)

Lemma get_set_list lw t u : get_list lw (set_list lw t u) = t.
Proof. destruct lw; reflexivity. Qed.

Lemma set_set_list lw t t' u : set_list lw t' (set_list lw t u) = set_list lw t' u.
Proof. destruct lw; reflexivity. Qed.

Lemma appended_nil lw w : appended lw [] w = w.
Proof.
  unfold appended. simpl. rewrite !app_nil_r.
  destruct w as [s [[i1 s1 m1] [i2 s2 m2] b1 b2] h]. destruct lw; reflexivity.
Qed.

Lemma appended_cons lw x xs w :
  appended lw xs (snd (tsl_edit_append lw x w)) = appended lw (x :: xs) w.
Proof.
  unfold appended, tsl_edit_append, ui_edit, tsl_append. simpl.
  rewrite get_set_list, set_set_list. simpl.
  now rewrite <- !app_assoc.
Qed.

Lemma for_each_append lw xs w :
  for_each xs (tsl_edit_append lw) w = (Returned tt, appended lw xs w).
Proof.
  revert w. induction xs as [|x xs IH]; intros w; simpl.
  - now rewrite appended_nil.
  - unfold bind. change (tsl_edit_append lw x w)
      with (Returned tt, snd (tsl_edit_append lw x w)).
    cbv iota beta. rewrite IH. now rewrite appended_cons.
Qed.

Lemma append_missing_run lw existing objs w :
  append_missing lw existing objs w
  = (Returned tt, appended lw (filter (fun obj => negb (py_in obj existing)) objs) w).
Proof.
  unfold append_missing. revert w. induction objs as [|x xs IH]; intros w; simpl.
  - now rewrite appended_nil.
  - unfold bind. destruct (py_in x existing); simpl.
    + apply IH.
    + rewrite IH, <- appended_cons. reflexivity.
Qed.

Lemma py_in_In obj items : py_in obj items = true <-> In obj items.
Proof.
  induction items as [|x items IH]; simpl.
  - split; [discriminate | tauto].
  - destruct (String.eqb_spec obj x) as [->|N].
    + split; auto.
    + rewrite IH. split; [auto | intros [E|I]; [congruence | exact I]].
Qed.

(** ** Sorting a column *)

Lemma sort_column_run lw (w : World H) :
  sort_column lw w
  = match allItems (get_list lw (ui w)) with
    | [] => (Returned tt, log (TslQueryAllItems lw) w)
    | _ :: _ =>
        (Returned tt,
         appended lw (sorted (allItems (get_list lw (ui w))))
                  (snd (tsl_edit_removeAll lw (log (TslQueryAllItems lw) w))))
    end.
Proof.
  unfold sort_column, bind, tsl_query_allItems, ui_query. simpl.
  destruct (allItems (get_list lw (ui w))) as [|x items]; simpl.
  - reflexivity.
  - change (tsl_edit_removeAll lw (log (TslQueryAllItems lw) w))
      with (Returned tt, snd (tsl_edit_removeAll lw (log (TslQueryAllItems lw) w))).
    cbv iota beta. apply for_each_append.
Qed.

Lemma sort_column_items lw (w : World H) :
  allItems (get_list lw (ui (snd (sort_column lw w))))
  = sorted (allItems (get_list lw (ui w))).
Proof.
  rewrite sort_column_run.
  destruct (allItems (get_list lw (ui w))) as [|x items] eqn:E.
  - simpl. exact E.
  - unfold appended, tsl_edit_removeAll, ui_edit. cbn [snd ui].
    rewrite !get_set_list. reflexivity.
Qed.

Lemma get_set_list_other lw lw' t u : lw' <> lw -> get_list lw' (set_list lw t u) = get_list lw' u.
Proof. destruct lw, lw'; intros N; try reflexivity; now contradiction N. Qed.

Lemma sort_column_frame lw (w : World H) :
  fst (sort_column lw w) = Returned tt
  /\ scene (snd (sort_column lw w)) = scene w
  /\ (forall lw', lw' <> lw ->
        get_list lw' (ui (snd (sort_column lw w))) = get_list lw' (ui w))
  /\ (allItems (get_list lw (ui w)) = [] ->
        ui (snd (sort_column lw w)) = ui w
        /\ issued w (snd (sort_column lw w)) = [TslQueryAllItems lw]).
Proof.
  rewrite sort_column_run.
  destruct (allItems (get_list lw (ui w))) as [|x items] eqn:E.
  - repeat split; try reflexivity. now apply issued_app.
  - repeat split; try reflexivity; try discriminate.
    intros lw' N. unfold appended, tsl_edit_removeAll, ui_edit. cbn [snd ui].
    now rewrite !get_set_list_other.
Qed.

(** C10.  sort_column_a on the source list and sort_column_b on the
    target list leave in the list exactly [sorted] of its prior items:
    a permutation of them (nothing added, nothing lost) in ascending
    string order, and the only such arrangement.  Sorting again changes
    nothing more.  On an empty list
    the callback only reads the list and leaves the widgets as they were.
    The scene and the other list are untouched in every case. *)
Theorem sort_column_sorts (lw : ListWidget) (sort : M H unit) (w : World H) :
  (lw = source_list /\ sort = sort_column_a) \/ (lw = target_list /\ sort = sort_column_b) ->
  let items := allItems (get_list lw (ui w)) in
  let r := sort w in
  let items' := allItems (get_list lw (ui (snd r))) in
  fst r = Returned tt
  /\ items' = sorted items
  /\ Permutation items items'
  /\ Sorted le_str items'
  /\ (forall l, Permutation items l -> Sorted le_str l -> l = items')
  /\ allItems (get_list lw (ui (snd (sort (snd r))))) = items'
  /\ (items = [] -> ui (snd r) = ui w /\ issued w (snd r) = [TslQueryAllItems lw])
  /\ scene (snd r) = scene w
  /\ (forall lw', lw' <> lw -> get_list lw' (ui (snd r)) = get_list lw' (ui w)).
Proof.
  intros Hsort items r items'.
  assert (E : sort = sort_column lw).
  { destruct Hsort as [[-> ->] | [-> ->]]; reflexivity. }
  subst items r items'. rewrite E. clear E Hsort sort.
  destruct (sort_column_frame lw w) as (Ho & Hs & Hother & Hempty).
  rewrite !sort_column_items.
  repeat split; try assumption; try reflexivity.
  - apply sorted_perm.
  - apply sorted_Sorted.
  - apply sorted_unique.
  - apply sorted_idem.
  - now apply Hempty.
  - now apply Hempty.
Qed.

(** ** Adding to the source list *)

Lemma or_empty_py_list l : or_empty (py_list l) = l.
Proof. destruct l; reflexivity. Qed.

Lemma add_to_source_items (w : World H) :
  allItems (ui_source_list (ui (snd (add_to_source w))))
  = allItems (ui_source_list (ui w))
    ++ filter (fun obj => negb (py_in obj (allItems (ui_source_list (ui w)))))
              (ls_selection H (scene w)).
Proof.
  unfold add_to_source, bind, cmds_ls_selection, scene_query, tsl_query_allItems, ui_query.
  simpl. destruct (ls_selection H (scene w)) as [|x sel]; simpl.
  - now rewrite app_nil_r.
  - rewrite append_missing_run. unfold appended. cbn [snd ui scene history log].
    change (ui_source_list ?u) with (get_list source_list u).
    rewrite get_set_list, or_empty_py_list. reflexivity.
Qed.

(** On the source list the invariant holds as long as the selection names
    no object twice: the names appended are selected names the list did
    not hold. *)
Lemma add_to_source_NoDup (w : World H) :
  NoDup (allItems (ui_source_list (ui w))) ->
  NoDup (ls_selection H (scene w)) ->
  NoDup (allItems (ui_source_list (ui (snd (add_to_source w))))).
Proof.
  intros Hitems Hsel. rewrite add_to_source_items.
  apply NoDup_app.
  - exact Hitems.
  - now apply NoDup_filter.
  - intros a Ha Hf. apply filter_In in Hf as [_ Hf].
    apply py_in_In in Ha. now rewrite Ha in Hf.
Qed.

(** ** What the callbacks issue *)

Ltac steps_go refl trans leaf :=
  repeat first
    [ apply (steps_ret _ refl) | apply (steps_raise _ refl) | apply (steps_index0 _ refl)
    | apply (steps_bind _ trans); [|intros ?]
    | apply (steps_for_each _ refl trans); intros ?
    | match goal with
      | |- steps _ (if ?b then _ else _) => destruct b
      | |- steps _ (match ?x with _ => _ end) => destruct x
      end
    | leaf ].

Section Emits.

Variable P : Cmd -> bool.

Lemma emits_scene_query {A : Type} c (f : Scene H -> A) :
  P c = true -> steps (emitted P) (scene_query c f).
Proof. intros Hc w. now apply (emitted_one P w _ c). Qed.

Lemma emits_scene_edit {A : Type} c (f : Scene H -> Outcome A * Scene H) :
  P c = true -> steps (emitted P) (scene_edit c f).
Proof.
  intros Hc w. apply (emitted_one P w _ c); [|exact Hc].
  unfold scene_edit. now destruct (f (scene w)).
Qed.

Lemma emits_ui_query {A : Type} c (f : UI -> A) :
  P c = true -> steps (emitted P) (@ui_query H A c f).
Proof. intros Hc w. now apply (emitted_one P w _ c). Qed.

Lemma emits_ui_edit c (f : UI -> UI) : P c = true -> steps (emitted P) (@ui_edit H c f).
Proof. intros Hc w. now apply (emitted_one P w _ c). Qed.

Lemma emits_warning msg : P (CmdWarning msg) = true -> steps (emitted P) (@cmds_warning H msg).
Proof. intros Hc w. now apply (emitted_one P w _ (CmdWarning msg)). Qed.

Lemma emits_error msg : P (CmdError msg) = true -> steps (emitted P) (@cmds_error H msg).
Proof. intros Hc w. now apply (emitted_one P w _ (CmdError msg)). Qed.

End Emits.

Ltac emits_leaf :=
  first [ apply emits_scene_query | apply emits_scene_edit | apply emits_ui_query
        | apply emits_ui_edit | apply emits_warning | apply emits_error ];
  reflexivity.

Ltac emits_go :=
  lazymatch goal with
  | |- steps (emitted ?P) _ => steps_go (emitted_refl P) (emitted_trans P) emits_leaf
  end.

Lemma emits_collect_objects P selected acc :
  (forall obj, P (ObjectType obj) = true) ->
  (forall obj, P (ListRelatives obj) = true) ->
  steps (emitted P) (@collect_objects H selected acc).
Proof.
  intros H1 H2. revert acc. induction selected as [|obj rest IH]; intros acc; simpl.
  - apply (steps_ret _ (emitted_refl P)).
  - apply (steps_bind _ (emitted_trans P)); [now apply emits_scene_query|].
    intros ty. destruct (String.eqb ty "transform"); [|apply IH].
    apply (steps_bind _ (emitted_trans P)); [now apply emits_scene_query|].
    intros children. destruct (list_truthy children); apply IH.
Qed.

Lemma dispatch_emits_allowed cb : steps (emitted (allowed cb)) (@dispatch H cb).
Proof.
  destruct cb; simpl;
    unfold add_to_source, add_to_target, remove_selected_from_source,
      remove_selected_from_target, remove_selected_from, copy_weights_button_pressed,
      copy_weights_one_to_one, clear_source_list, clear_target_list, toggle_mode,
      sort_column_a, sort_column_b, sort_column, append_missing, copy_skin_weights;
    repeat first
      [ apply emits_collect_objects; intros ?; reflexivity | progress emits_go ].
Qed.

Lemma filter_append_map lw l : filter is_append (map (TslAppend lw) l) = map (TslAppend lw) l.
Proof. induction l; simpl; [reflexivity | now rewrite IHl]. Qed.

Lemma toggle_mode_run (w : World H) :
  exists c1 c2 c3 w',
    toggle_mode w = (Returned tt, w')
    /\ history w' = history w ++ [ButtonQueryLabel copy_button; c1; c2; c3]
    /\ scene w' = scene w
    /\ list_items (ui w') = list_items (ui w)
    /\ label (ui_copy_button (ui w')) <> label (ui_copy_button (ui w)).
Proof.
  unfold toggle_mode, bind, button_query_label, button_edit_label, button_edit_color,
    tsl_edit_allowMultiSelection, ui_query, ui_edit. simpl.
  destruct (String.eqb_spec (label (ui_copy_button (ui w)))
                            "Copy Skin Weights (Single Source)") as [E|N]; simpl.
  - do 4 eexists. split; [reflexivity|]. simpl. rewrite <- !app_assoc. simpl.
    repeat split. rewrite E. discriminate.
  - do 4 eexists. split; [reflexivity|]. simpl. rewrite <- !app_assoc. simpl.
    repeat split. congruence.
Qed.

(** ** Where the tool keeps state *)

Lemma keeps_scene_query {A : Type} c (f : Scene H -> A) :
  steps (kept mode_state) (scene_query c f).
Proof. intros w. reflexivity. Qed.

Lemma keeps_scene_edit {A : Type} c (f : Scene H -> Outcome A * Scene H) :
  steps (kept mode_state) (scene_edit c f).
Proof. intros w. unfold scene_edit. now destruct (f (scene w)). Qed.

Lemma keeps_ui_query {A : Type} c (f : UI -> A) : steps (kept mode_state) (@ui_query H A c f).
Proof. intros w. reflexivity. Qed.

Lemma keeps_ui_edit c (f : UI -> UI) :
  (forall u, beside_lists (f u) = beside_lists u) ->
  steps (kept mode_state) (@ui_edit H c f).
Proof. intros Hf w. unfold kept, mode_state. simpl. apply Hf. Qed.

Lemma keeps_warning msg : steps (kept mode_state) (@cmds_warning H msg).
Proof. intros w. reflexivity. Qed.

Lemma keeps_error msg : steps (kept mode_state) (@cmds_error H msg).
Proof. intros w. reflexivity. Qed.

Ltac keeps_leaf :=
  first [ apply keeps_scene_query | apply keeps_scene_edit | apply keeps_ui_query
        | apply keeps_warning | apply keeps_error
        | apply keeps_ui_edit; intros ?; reflexivity ].

Ltac keeps_go :=
  steps_go (@kept_refl _ (@mode_state H)) (@kept_trans _ (@mode_state H)) keeps_leaf.

Lemma keeps_collect_objects selected acc :
  steps (kept mode_state) (@collect_objects H selected acc).
Proof.
  revert acc. induction selected as [|obj rest IH]; intros acc; simpl.
  - keeps_go.
  - keeps_go; apply IH.
Qed.

Lemma list_callbacks_keep_mode cb :
  cb <> cb_toggle_mode -> steps (kept mode_state) (@dispatch H cb).
Proof.
  intros N. destruct cb; try (now contradiction N); clear N; simpl;
    unfold add_to_source, add_to_target, remove_selected_from_source,
      remove_selected_from_target, remove_selected_from, copy_weights_button_pressed,
      copy_weights_one_to_one, clear_source_list, clear_target_list,
      sort_column_a, sort_column_b, sort_column, append_missing, copy_skin_weights;
    repeat first [ apply keeps_collect_objects | progress keeps_go ].
Qed.

(** C6, as the script has it.  Besides the object names in the two lists,
    the tool keeps state in the widgets around them: the copy button's
    label and bound callback (the current mode), the two buttons' colour
    and the lists' selection mode.  toggle_mode works on that state only:
    it leaves the items of both lists and the scene as they were and
    always changes the copy button's label.  Every other callback leaves
    that state as it was, so what it does to the tool is confined to the
    two lists. *)
Theorem tool_state_is_lists_and_mode (cb : Callback) (w : World H) :
  let w' := snd (dispatch cb w) in
  (cb <> cb_toggle_mode -> beside_lists (ui w') = beside_lists (ui w))
  /\ (cb = cb_toggle_mode ->
        list_items (ui w') = list_items (ui w)
        /\ scene w' = scene w
        /\ label (ui_copy_button (ui w')) <> label (ui_copy_button (ui w))
        /\ beside_lists (ui w') <> beside_lists (ui w)).
Proof.
  intros w'. split.
  - intros N. exact (list_callbacks_keep_mode cb N w).
  - intros ->. subst w'. simpl.
    destruct (toggle_mode_run w) as (c1 & c2 & c3 & w' & Hrun & _ & Hs & Hl & Hlabel).
    rewrite Hrun. simpl. repeat split; try assumption.
    unfold beside_lists. intros E. apply Hlabel. congruence.
Qed.

(** ** copy_skin_weights does not look at the widgets *)

Lemma ui_blind_ret {A : Type} (a : A) : ui_blind (@ret H A a).
Proof. intros u w. reflexivity. Qed.

Lemma ui_blind_raise {A : Type} e : ui_blind (@raise H A e).
Proof. intros u w. reflexivity. Qed.

Lemma ui_blind_bind {A B : Type} (m : M H A) (k : A -> M H B) :
  ui_blind m -> (forall a, ui_blind (k a)) -> ui_blind (bind m k).
Proof.
  intros Hm Hk u w. unfold bind. rewrite Hm.
  destruct (m w) as [[a|e] w1]; simpl.
  - apply Hk.
  - reflexivity.
Qed.

Lemma ui_blind_for_each {A : Type} (xs : list A) (body : A -> M H unit) :
  (forall x, ui_blind (body x)) -> ui_blind (for_each xs body).
Proof.
  intros Hb. induction xs as [|x xs IH]; simpl.
  - apply ui_blind_ret.
  - apply ui_blind_bind; [apply Hb | intros _; exact IH].
Qed.

Lemma ui_blind_scene_query {A : Type} c (f : Scene H -> A) : ui_blind (scene_query c f).
Proof. intros u w. reflexivity. Qed.

Lemma ui_blind_scene_edit {A : Type} c (f : Scene H -> Outcome A * Scene H) :
  ui_blind (scene_edit c f).
Proof. intros u w. unfold scene_edit. simpl. now destruct (f (scene w)). Qed.

Lemma ui_blind_warning msg : ui_blind (@cmds_warning H msg).
Proof. intros u w. reflexivity. Qed.

Lemma ui_blind_error msg : ui_blind (@cmds_error H msg).
Proof. intros u w. reflexivity. Qed.

Lemma ui_blind_index0 xs : ui_blind (@index0 H xs).
Proof. destruct xs; [apply ui_blind_raise | apply ui_blind_ret]. Qed.

Lemma ui_blind_copy_skin_weights source target :
  ui_blind (@copy_skin_weights H source target).
Proof.
  unfold copy_skin_weights.
  repeat first
    [ apply ui_blind_ret | apply ui_blind_index0 | apply ui_blind_warning
    | apply ui_blind_error | apply ui_blind_scene_query | apply ui_blind_scene_edit
    | apply ui_blind_bind; [|intros ?]
    | match goal with |- ui_blind (if ?b then _ else _) => destruct b end ].
Qed.

(** A computation that is framed and blind to the widgets is determined by
    the scene: its run on [w] is its run on [bare w], with the history
    and the widgets of [w] put back. *)
Lemma scene_only_run {A : Type} (m : M H A) (w : World H) :
  framed m -> ui_blind m ->
  m w = (fst (m (bare w)),
         {| scene := scene (snd (m (bare w)));
            ui := ui w;
            history := history w ++ history (snd (m (bare w))) |}).
Proof.
  intros Hf Hu.
  rewrite (framed_run m w Hf).
  change (with_history [] w) with (with_ui (ui w) (bare w)).
  rewrite Hu. reflexivity.
Qed.

(** ** Loops and exceptions *)

(** [for_each] invokes the body on an initial segment of the list: on the
    whole list when it returns, and up to the invocation that raised
    otherwise. *)
Lemma for_each_prefix {A : Type} (body : A -> M H unit) (xs : list A) (w : World H) :
  exists n,
    n <= List.length xs
    /\ snd (for_each xs body w) = run_all body (firstn n xs) w
    /\ (fst (for_each xs body w) = Returned tt -> n = List.length xs)
    /\ (n < List.length xs -> exists e, fst (for_each xs body w) = Raised e).
Proof.
  revert w. induction xs as [|x xs IH]; intros w; simpl.
  - exists 0. repeat split; try reflexivity; try lia.
  - unfold bind. destruct (body x w) as [[[]|e] w1] eqn:E.
    + destruct (IH w1) as (n & Hn & Hrun & Hret & Hraise).
      exists (S n). simpl. rewrite E. simpl.
      split; [lia|]. split; [exact Hrun|].
      split; [intros R; f_equal; now apply Hret | intros L; apply Hraise; lia].
    + exists 1. simpl. rewrite E. simpl.
      split; [lia|]. split; [reflexivity|].
      split; [discriminate | intros _; now exists e].
Qed.

Lemma copy_weights_button_pressed_run (w : World H) source rest targets :
  allItems (ui_source_list (ui w)) = source :: rest ->
  allItems (ui_target_list (ui w)) = targets ->
  targets <> [] ->
  copy_weights_button_pressed w
  = for_each targets (copy_skin_weights source)
             (log (TslQueryAllItems target_list) (log (TslQueryAllItems source_list) w)).
Proof.
  intros Es Et N.
  unfold copy_weights_button_pressed, bind, tsl_query_allItems, ui_query. simpl.
  rewrite Es, Et. destruct targets as [|t targets]; [now contradiction N|]. reflexivity.
Qed.

Lemma copy_weights_button_pressed_scene_only (w : World H) source rest targets :
  allItems (ui_source_list (ui w)) = source :: rest ->
  allItems (ui_target_list (ui w)) = targets ->
  targets <> [] ->
  let run := for_each targets (copy_skin_weights source) (bare w) in
  fst (copy_weights_button_pressed w) = fst run
  /\ scene (snd (copy_weights_button_pressed w)) = scene (snd run)
  /\ issued w (snd (copy_weights_button_pressed w))
     = TslQueryAllItems source_list :: TslQueryAllItems target_list :: history (snd run).
Proof.
  intros Es Et N run.
  rewrite (copy_weights_button_pressed_run w source rest targets Es Et N).
  rewrite scene_only_run.
  - change (bare (log (TslQueryAllItems target_list)
                      (log (TslQueryAllItems source_list) w))) with (bare w).
    fold run. simpl. repeat split.
    apply issued_app. simpl. now rewrite <- !app_assoc.
  - apply framed_for_each. intros t. apply framed_copy_skin_weights.
  - apply ui_blind_for_each. intros t. apply ui_blind_copy_skin_weights.
Qed.

End Facts.

(** * The script on the concrete host *)

(** ** Runs of the theorems above *)

Lemma copy_skin_weights_without_source_cluster_witness :
  let w := toy_world true (unbound []) ["body"] ["shirt"] in
  findRelatedSkinCluster (toy_host true) (scene w) "body" = ""
  /\ issued w (snd (copy_skin_weights "body" "shirt" w))
     = [MelFindRelatedSkinCluster "body"; CmdError "Source object has no skin cluster."].
Proof.
  intros w. split; [reflexivity|].
  exact (proj1 (copy_skin_weights_without_source_cluster "body" "shirt" w eq_refl)).
Defined.

Lemma add_with_nothing_selected_witness :
  let w := toy_world true (wardrobe []) ["body"] ["shirt"] in
  ls_selection (toy_host true) (scene w) = []
  /\ issued w (snd (add_to_target w)) = [LsSelection; CmdWarning "No object selected."]
  /\ ui (snd (add_to_target w)) = ui w.
Proof.
  intros w. split; [reflexivity|].
  destruct (add_with_nothing_selected w eq_refl (add_to_target w) (or_intror eq_refl))
    as (Hi & _ & Hu & _).
  exact (conj Hi Hu).
Defined.

Lemma copy_callbacks_warn_once_witness :
  let w := toy_world true (wardrobe []) ["body"; "body"] ["shirt"] in
  List.length (allItems (ui_source_list (ui w)))
  <> List.length (allItems (ui_target_list (ui w)))
  /\ exists msg,
       issued w (snd (copy_weights_one_to_one w))
       = [TslQueryAllItems source_list; TslQueryAllItems target_list; CmdWarning msg].
Proof.
  intros w.
  assert (N : List.length (allItems (ui_source_list (ui w)))
              <> List.length (allItems (ui_target_list (ui w)))) by discriminate.
  split; [exact N|].
  destruct (copy_callbacks_warn_once w (copy_weights_one_to_one w)
              (or_intror (conj (or_intror (or_intror N)) eq_refl)))
    as (msg & Hi & _).
  exists msg. exact Hi.
Defined.

Lemma sort_column_sorts_witness :
  let w := toy_world true (wardrobe []) ["shirt"; "body"; "Zed"; "pants"] [] in
  allItems (ui_source_list (ui (snd (sort_column_a w)))) = ["Zed"; "body"; "pants"; "shirt"]
  /\ Permutation ["shirt"; "body"; "Zed"; "pants"]
                 (allItems (ui_source_list (ui (snd (sort_column_a w))))).
Proof.
  intros w.
  destruct (sort_column_sorts source_list sort_column_a w (or_introl (conj eq_refl eq_refl)))
    as (_ & Hitems & Hperm & _).
  exact (conj Hitems Hperm).
Defined.

Lemma tool_state_is_lists_and_mode_witness :
  let w := toy_world true (wardrobe ["shirt"]) ["body"] [] in
  cb_add_to_target <> cb_toggle_mode
  /\ beside_lists (ui (snd (dispatch cb_add_to_target w))) = beside_lists (ui w)
  /\ list_items (ui (snd (dispatch cb_toggle_mode w))) = list_items (ui w).
Proof.
  intros w.
  assert (N : cb_add_to_target <> cb_toggle_mode) by discriminate.
  split; [exact N|]. split.
  - exact (proj1 (tool_state_is_lists_and_mode cb_add_to_target w) N).
  - exact (proj1 (proj2 (tool_state_is_lists_and_mode cb_toggle_mode w) eq_refl)).
Defined.

(** ** Where the script departs from what is said of it *)

(** Against C3 as stated.  With the source unbound and a host whose error
    command raises, the first invocation ends the callback: nothing is
    issued for "pants", where one invocation per target would have issued
    the query and the error a second time. *)
Lemma single_source_stops_at_exception :
  let w := toy_world true (unbound []) ["body"] ["shirt"; "pants"] in
  let w0 := log (TslQueryAllItems target_list) (log (TslQueryAllItems source_list) w) in
  let r := copy_weights_button_pressed w in
  allItems (ui_source_list (ui w)) = ["body"]
  /\ allItems (ui_target_list (ui w)) = ["shirt"; "pants"]
  /\ fst r = Raised "RuntimeError"
  /\ issued w (snd r)
     = [TslQueryAllItems source_list; TslQueryAllItems target_list;
        MelFindRelatedSkinCluster "body"; CmdError "Source object has no skin cluster."]
  /\ issued w (run_all (copy_skin_weights "body") ["shirt"; "pants"] w0)
     = [TslQueryAllItems source_list; TslQueryAllItems target_list;
        MelFindRelatedSkinCluster "body"; CmdError "Source object has no skin cluster.";
        MelFindRelatedSkinCluster "body"; CmdError "Source object has no skin cluster."]
  /\ snd r <> run_all (copy_skin_weights "body") ["shirt"; "pants"] w0.
Proof.
  intros w w0 r. repeat split. intros E.
  apply (f_equal (fun x => List.length (history x))) in E. discriminate E.
Qed.

(** Against C5 as stated.  With two objects selected, add_to_source issues
    four host commands, two of them appends; no single command accounts
    for the invocation. *)
Lemma add_to_source_issues_several :
  let w := toy_world true (wardrobe ["shirt"; "pants"]) [] [] in
  let cmds := issued w (snd (dispatch cb_add_to_source w)) in
  cmds = [LsSelection; TslQueryAllItems source_list;
          TslAppend source_list "shirt"; TslAppend source_list "pants"]
  /\ filter (forwards cb_add_to_source) cmds
     = [TslAppend source_list "shirt"; TslAppend source_list "pants"]
  /\ ~ (exists c, cmds = [c])
  /\ ~ (exists c, filter (forwards cb_add_to_source) cmds = [c]).
Proof.
  intros w cmds. repeat split; intros [c E]; discriminate E.
Qed.

(** Against C6 as stated.  toggle_mode leaves both lists and the scene as
    they were and changes the copy button: its label and bound callback
    are state outside the two lists.  The tool reads that state back: a
    second press, from the same lists and the same scene, issues other
    commands than the first. *)
Lemma toggle_mode_keeps_state_in_button :
  let w := toy_world true (wardrobe []) ["body"] ["shirt"] in
  let w1 := snd (dispatch cb_toggle_mode w) in
  let w2 := snd (dispatch cb_toggle_mode w1) in
  list_items (ui w1) = list_items (ui w)
  /\ scene w1 = scene w
  /\ label (ui_copy_button (ui w)) = "Copy Skin Weights (Single Source)"
  /\ label (ui_copy_button (ui w1)) = "Copy Skin Weights (One-to-One)"
  /\ command (ui_copy_button (ui w1)) = cb_copy_weights_one_to_one
  /\ beside_lists (ui w1) <> beside_lists (ui w)
  /\ issued w w1 <> issued w1 w2.
Proof.
  intros w w1 w2. repeat split; intros E; discriminate E.
Qed.

(** C9 fails on add_to_target.  The group "clothes" and its child "shirt"
    are both selected, and the target list is empty.  The group
    contributes its descendants "shirt" and "pants", the child contributes
    itself, and every name is tested against the items read before the
    loop, so "shirt" is appended twice. *)
Theorem add_to_target_appends_twice :
  let w := toy_world true (wardrobe ["clothes"; "shirt"]) [] [] in
  let r := add_to_target w in
  NoDup (ls_selection (toy_host true) (scene w))
  /\ NoDup (allItems (ui_target_list (ui w)))
  /\ fst r = Returned tt
  /\ issued w (snd r)
     = [LsSelection; ObjectType "clothes"; ListRelatives "clothes";
        ObjectType "shirt"; ListRelatives "shirt"; TslQueryAllItems target_list;
        TslAppend target_list "shirt"; TslAppend target_list "pants";
        TslAppend target_list "shirt"]
  /\ allItems (ui_target_list (ui (snd r))) = ["shirt"; "pants"; "shirt"]
  /\ ~ NoDup (allItems (ui_target_list (ui (snd r)))).
Proof.
  intros w r. split; [|split; [|split; [|split; [|split]]]]; try reflexivity.
  - repeat constructor; simpl; intuition discriminate.
  - constructor.
  - intros D. simpl in D. apply NoDup_cons_iff in D as [D _].
    apply D. right. left. reflexivity.
Qed.

(** * More of the script *)

Section More.

Context {H : Host}.
Implicit Types (w : World H).

Ltac walk refl trans leaf :=
  repeat first
    [ apply (steps_ret _ refl) | apply (steps_raise _ refl) | apply (steps_index0 _ refl)
    | apply (steps_bind _ trans); [|intros ?]
    | apply (steps_for_each _ refl trans); intros ?
    | match goal with
      | |- steps _ (if ?b then _ else _) => destruct b
      | |- steps _ (match ?x with _ => _ end) => destruct x
      end
    | leaf ].

(** A single host command keeps an observation when running it shows so. *)
Ltac kept_leaf :=
  unfold steps, kept; intros ?;
  cbv [mel_findRelatedSkinCluster cmds_warning cmds_error cmds_skinCluster_query_inf
       cmds_skinCluster_bind cmds_copySkinWeights cmds_select cmds_ls_selection
       cmds_objectType cmds_listRelatives tsl_query_allItems tsl_query_selectItem
       tsl_edit_append tsl_edit_removeItem tsl_edit_removeAll tsl_edit_allowMultiSelection
       button_query_label button_edit_label button_edit_color
       scene_query scene_edit ui_query ui_edit log];
  try match goal with |- context [let '(_, _) := ?e in _] => destruct e end;
  reflexivity.

Ltac kept_walk obs := walk (@kept_refl H _ obs) (@kept_trans H _ obs) kept_leaf.

Ltac unfold_callbacks :=
  unfold add_to_source, add_to_target, remove_selected_from_source,
    remove_selected_from_target, remove_selected_from, copy_weights_button_pressed,
    copy_weights_one_to_one, clear_source_list, clear_target_list, toggle_mode,
    sort_column_a, sort_column_b, sort_column, append_missing, copy_skin_weights.

Lemma collect_objects_keeps {X : Type} (obs : World H -> X) selected acc :
  (forall c w, obs (log c w) = obs w) ->
  steps (kept obs) (@collect_objects H selected acc).
Proof.
  intros Hlog. revert acc. induction selected as [|obj rest IH]; intros acc; simpl.
  - apply (steps_ret _ (kept_refl obs)).
  - apply (steps_bind _ (kept_trans obs)); [intros w; apply Hlog|].
    intros ty. destruct (String.eqb ty "transform"); [|apply IH].
    apply (steps_bind _ (kept_trans obs)); [intros w; apply Hlog|].
    intros children. destruct (list_truthy children); apply IH.
Qed.

(** ** What each callback leaves alone *)

Lemma dispatch_keeps_scene (cb : Callback) (w : World H) :
  is_copy_callback cb = false ->
  scene (snd (dispatch cb w)) = scene w.
Proof.
  intros N. revert w. change (steps (kept (@scene H)) (dispatch cb)).
  destruct cb; try discriminate N; clear N; simpl; unfold_callbacks;
    repeat first [ apply collect_objects_keeps; reflexivity
                 | progress kept_walk (@scene H) ].
Qed.

(** X1.  Only the copy callbacks reach the scene: every list callback (add,
    remove, clear, sort) and toggle_mode leaves the scene exactly as it
    was. *)
Theorem list_callbacks_keep_scene (cb : Callback) (w : World H) :
  is_copy_callback cb = false ->
  scene (snd (dispatch cb w)) = scene w.
Proof. exact (dispatch_keeps_scene cb w). Qed.

Lemma copy_dispatch_keeps_ui (cb : Callback) (w : World H) :
  is_copy_callback cb = true ->
  ui (snd (dispatch cb w)) = ui w.
Proof.
  intros N. revert w. change (steps (kept (@ui H)) (dispatch cb)).
  destruct cb; try discriminate N; clear N; simpl; unfold_callbacks;
    kept_walk (@ui H).
Qed.

(** X2.  The copy callbacks never edit a widget: both lists (items and
    selection), both buttons and the selection mode are after the copy
    what they were before, however the copy ended. *)
Theorem copy_callbacks_keep_widgets (cb : Callback) (w : World H) :
  is_copy_callback cb = true ->
  ui (snd (dispatch cb w)) = ui w.
Proof. exact (copy_dispatch_keeps_ui cb w). Qed.

Lemma dispatch_keeps_other_list (cb : Callback) (lw lw' : ListWidget) (w : World H) :
  list_of cb = Some lw ->
  lw' <> lw ->
  get_list lw' (ui (snd (dispatch cb w))) = get_list lw' (ui w).
Proof.
  intros Hcb N. revert w.
  change (steps (kept (fun w => get_list lw' (ui w))) (dispatch cb)).
  destruct cb; simpl in Hcb; try discriminate Hcb;
    injection Hcb as <-; destruct lw'; try (now contradiction N); clear N;
    simpl; unfold_callbacks;
    repeat first
      [ apply collect_objects_keeps; reflexivity
      | progress kept_walk (fun w : World H => get_list source_list (ui w))
      | progress kept_walk (fun w : World H => get_list target_list (ui w)) ].
Qed.

(** X3.  A callback of one column leaves the other column's list widget as it
    was: items, selection and selection mode. *)
Theorem callbacks_keep_other_list (cb : Callback) (lw lw' : ListWidget) (w : World H) :
  list_of cb = Some lw ->
  lw' <> lw ->
  get_list lw' (ui (snd (dispatch cb w))) = get_list lw' (ui w).
Proof. exact (dispatch_keeps_other_list cb lw lw' w). Qed.

(** ** Adding the selection *)

Lemma filter_known_nil (l sel : list string) :
  incl sel l -> filter (fun obj => negb (py_in obj l)) sel = [].
Proof.
  intros Hin. induction sel as [|x sel IH]; simpl; [reflexivity|].
  assert (Hx : py_in x l = true) by (apply py_in_In, Hin; now left).
  rewrite Hx. simpl. apply IH. intros y Hy. apply Hin. now right.
Qed.

Lemma filter_unknown_all (sel : list string) :
  filter (fun obj => negb (py_in obj [])) sel = sel.
Proof. induction sel as [|x sel IH]; simpl in *; [reflexivity | now rewrite IH]. Qed.

Lemma in_appended_new (l sel : list string) (x : string) :
  In x (l ++ filter (fun obj => negb (py_in obj l)) sel) <-> In x l \/ In x sel.
Proof.
  rewrite in_app_iff, filter_In. split.
  - intros [Hl | [Hs _]]; auto.
  - intros [Hl | Hs]; [now left|].
    destruct (py_in x l) eqn:E.
    + left. now apply py_in_In.
    + right. split; [exact Hs | reflexivity].
Qed.

(** X4.  add_to_source appends to the source list, in selection order, the
    selected objects the list did not hold: the prior items stay in front
    in their order, and afterwards the list holds exactly the prior items
    and the selected objects. *)
Theorem add_to_source_appends_new (w : World H) :
  let items := allItems (ui_source_list (ui w)) in
  let sel := ls_selection H (scene w) in
  let items' := allItems (ui_source_list (ui (snd (add_to_source w)))) in
  items' = items ++ filter (fun obj => negb (py_in obj items)) sel
  /\ (forall x, In x items' <-> In x items \/ In x sel)
  /\ (incl sel items -> items' = items).
Proof.
  intros items sel items'. subst items'. rewrite add_to_source_items. fold items sel.
  split; [reflexivity|]. split.
  - intros x. apply in_appended_new.
  - intros Hin. rewrite (filter_known_nil items sel Hin). apply app_nil_r.
Qed.

(** X5.  Pressing "Add Selected to Column A" a second time adds nothing: with
    the selection unchanged, the source list after two add_to_source is
    the list after one. *)
Theorem add_to_source_twice (w : World H) :
  let w1 := snd (add_to_source w) in
  let w2 := snd (add_to_source w1) in
  allItems (ui_source_list (ui w2)) = allItems (ui_source_list (ui w1)).
Proof.
  intros w1 w2. subst w2.
  rewrite (add_to_source_items w1).
  assert (Hs : scene w1 = scene w)
    by (apply (dispatch_keeps_scene cb_add_to_source w); reflexivity).
  rewrite Hs, filter_known_nil; [apply app_nil_r|].
  intros x Hx. subst w1. rewrite add_to_source_items.
  apply in_appended_new. now right.
Qed.

(** X6.  clear_source_list empties the source list, and an add_to_source
    after it makes the list the current selection, in selection order. *)
Theorem clear_then_add_to_source (w : World H) :
  let w1 := snd (clear_source_list w) in
  let w2 := snd (add_to_source w1) in
  allItems (ui_source_list (ui w1)) = []
  /\ allItems (ui_source_list (ui w2)) = ls_selection H (scene w).
Proof.
  intros w1 w2. split; [reflexivity|].
  subst w2. rewrite add_to_source_items.
  change (allItems (ui_source_list (ui w1))) with (@nil string).
  change (scene w1) with (scene w).
  simpl. apply filter_unknown_all.
Qed.

(** ** Adding a hierarchy *)

Lemma collect_objects_run (selected acc : list string) (w : World H) :
  exists h,
    collect_objects selected acc w
    = (Returned (acc ++ flat_map (contribution (scene w)) selected),
       with_history (history w ++ h) w).
Proof.
  revert acc w. induction selected as [|obj rest IH]; intros acc w.
  - exists []. simpl. rewrite !app_nil_r. destruct w; reflexivity.
  - cbn [collect_objects flat_map].
    unfold bind, cmds_objectType, cmds_listRelatives, scene_query.
    cbv beta iota.
    change (scene (log (ObjectType obj) w)) with (scene w).
    destruct (String.eqb (objectType H (scene w) obj) "transform") eqn:Ety.
    + cbv beta iota.
      change (scene (log (ObjectType obj) w)) with (scene w).
      destruct (list_truthy (listRelatives H (scene w) obj)) eqn:Erel.
      * assert (Hc : contribution (scene w) obj = or_empty (listRelatives H (scene w) obj))
          by (unfold contribution; now rewrite Ety, Erel).
        destruct (IH (acc ++ or_empty (listRelatives H (scene w) obj))
                     (log (ListRelatives obj) (log (ObjectType obj) w))) as [h Hh].
        exists (ObjectType obj :: ListRelatives obj :: h).
        rewrite Hh, Hc. f_equal; [now rewrite <- app_assoc|].
        unfold with_history, log. simpl. now rewrite <- !app_assoc.
      * assert (Hc : contribution (scene w) obj = [obj])
          by (unfold contribution; now rewrite Ety, Erel).
        destruct (IH (acc ++ [obj])
                     (log (ListRelatives obj) (log (ObjectType obj) w))) as [h Hh].
        exists (ObjectType obj :: ListRelatives obj :: h).
        rewrite Hh, Hc. f_equal; [now rewrite <- app_assoc|].
        unfold with_history, log. simpl. now rewrite <- !app_assoc.
    + assert (Hc : contribution (scene w) obj = [obj])
        by (unfold contribution; now rewrite Ety).
      destruct (IH (acc ++ [obj]) (log (ObjectType obj) w)) as [h Hh].
      exists (ObjectType obj :: h).
      rewrite Hh, Hc. f_equal; [now rewrite <- app_assoc|].
      unfold with_history, log. simpl. now rewrite <- !app_assoc.
Qed.

Lemma add_to_target_items (w : World H) :
  allItems (ui_target_list (ui (snd (add_to_target w))))
  = allItems (ui_target_list (ui w))
    ++ filter (fun obj => negb (py_in obj (allItems (ui_target_list (ui w)))))
              (flat_map (contribution (scene w)) (ls_selection H (scene w))).
Proof.
  unfold add_to_target, bind, cmds_ls_selection, scene_query. simpl.
  destruct (ls_selection H (scene w)) as [|x sel] eqn:Esel.
  - simpl. now rewrite app_nil_r.
  - destruct (collect_objects_run (x :: sel) [] (log LsSelection w)) as [h Hh].
    rewrite Hh. unfold tsl_query_allItems, ui_query. cbn [fst snd].
    rewrite append_missing_run. unfold appended. cbn [snd ui scene history log with_history].
    change (ui_target_list ?u) with (get_list target_list u).
    rewrite get_set_list, or_empty_py_list. reflexivity.
Qed.

(** X7.  add_to_target appends to the target list, in order, what each
    selected object contributes (its descendant transforms when it is a
    transform that has some, itself otherwise), leaving out the names the
    list held before the press; the prior items stay in front. *)
Theorem add_to_target_appends_contributions (w : World H) :
  let items := allItems (ui_target_list (ui w)) in
  let objs := flat_map (contribution (scene w)) (ls_selection H (scene w)) in
  let items' := allItems (ui_target_list (ui (snd (add_to_target w)))) in
  items' = items ++ filter (fun obj => negb (py_in obj items)) objs
  /\ (forall x, In x items' <-> In x items \/ In x objs).
Proof.
  intros items objs items'. subst items'. rewrite add_to_target_items. fold items objs.
  split; [reflexivity|]. intros x. apply in_appended_new.
Qed.

(** X8.  With one group selected (a transform that has descendant transforms),
    add_to_target adds the descendants and not the group: the group's name
    enters the list only if it was there before or is among its own
    descendants. *)
Theorem add_to_target_group (w : World H) (group child : string) (children : list string) :
  ls_selection H (scene w) = [group] ->
  objectType H (scene w) group = "transform" ->
  listRelatives H (scene w) group = Some (child :: children) ->
  let items := allItems (ui_target_list (ui w)) in
  let items' := allItems (ui_target_list (ui (snd (add_to_target w)))) in
  items' = items ++ filter (fun obj => negb (py_in obj items)) (child :: children)
  /\ (~ In group items -> ~ In group (child :: children) -> ~ In group items').
Proof.
  intros Hsel Hty Hrel items items'.
  assert (E : items' = items ++ filter (fun obj => negb (py_in obj items)) (child :: children)).
  { subst items'. rewrite add_to_target_items, Hsel. fold items.
    cbn [flat_map]. unfold contribution. rewrite Hty, Hrel. cbn.
    now rewrite app_nil_r. }
  split; [exact E|].
  intros N1 N2. rewrite E. intros Hin.
  apply in_appended_new in Hin. tauto.
Qed.

(** ** Removing the selected items *)

Lemma removed_nil lw w : removed lw [] w = w.
Proof.
  unfold removed, remove_each. simpl. rewrite app_nil_r.
  destruct w as [s [[i1 s1 m1] [i2 s2 m2] b1 b2] h]. destruct lw; reflexivity.
Qed.

Lemma removed_cons lw x xs w :
  removed lw xs (snd (tsl_edit_removeItem lw x w)) = removed lw (x :: xs) w.
Proof.
  unfold removed, tsl_edit_removeItem, ui_edit, tsl_removeItem, remove_each. simpl.
  rewrite get_set_list, set_set_list. simpl.
  now rewrite <- !app_assoc.
Qed.

Lemma for_each_remove lw xs w :
  for_each xs (tsl_edit_removeItem lw) w = (Returned tt, removed lw xs w).
Proof.
  revert w. induction xs as [|x xs IH]; intros w; simpl.
  - now rewrite removed_nil.
  - unfold bind. change (tsl_edit_removeItem lw x w)
      with (Returned tt, snd (tsl_edit_removeItem lw x w)).
    cbv iota beta. rewrite IH. now rewrite removed_cons.
Qed.

Lemma remove_selected_from_run lw (w : World H) :
  remove_selected_from lw w
  = match selectItem (get_list lw (ui w)) with
    | [] => (Returned tt,
             log (CmdWarning "No item selected in the list.")
                 (log (TslQuerySelectItem lw) w))
    | _ :: _ =>
        (Returned tt,
         removed lw (selectItem (get_list lw (ui w))) (log (TslQuerySelectItem lw) w))
    end.
Proof.
  unfold remove_selected_from, bind, tsl_query_selectItem, ui_query. simpl.
  destruct (selectItem (get_list lw (ui w))) as [|x sel]; simpl.
  - reflexivity.
  - apply (for_each_remove lw (x :: sel)).
Qed.

Lemma remove_selected_from_items lw (w : World H) :
  allItems (get_list lw (ui (snd (remove_selected_from lw w))))
  = remove_each (selectItem (get_list lw (ui w))) (allItems (get_list lw (ui w))).
Proof.
  rewrite remove_selected_from_run.
  destruct (selectItem (get_list lw (ui w))) as [|x sel] eqn:E.
  - reflexivity.
  - unfold removed. cbn [snd ui log]. now rewrite get_set_list.
Qed.

Lemma remove_first_incl x l y : In y (remove_first x l) -> In y l.
Proof.
  induction l as [|a l IH]; simpl; [tauto|].
  destruct (String.eqb x a); simpl; tauto.
Qed.

Lemma remove_each_incl xs l y : In y (remove_each xs l) -> In y l.
Proof.
  unfold remove_each. revert l. induction xs as [|x xs IH]; intros l; simpl; [tauto|].
  intros Hy. apply (remove_first_incl x). now apply IH.
Qed.

Lemma remove_first_length x l : List.length (remove_first x l) <= List.length l.
Proof.
  induction l as [|a l IH]; simpl; [lia|].
  destruct (String.eqb x a); simpl; lia.
Qed.

Lemma remove_each_length xs l : List.length (remove_each xs l) <= List.length l.
Proof.
  unfold remove_each. revert l. induction xs as [|x xs IH]; intros l; simpl; [lia|].
  specialize (IH (remove_first x l)). pose proof (remove_first_length x l). lia.
Qed.

Lemma filter_keeps_all {A : Type} (keep : A -> bool) (l : list A) :
  Forall (fun a => keep a = true) l -> filter keep l = l.
Proof.
  induction 1 as [|a l Ha Hl IH]; simpl; [reflexivity|].
  now rewrite Ha, IH.
Qed.

Lemma remove_first_filter x l :
  NoDup l -> remove_first x l = filter (fun y => negb (String.eqb y x)) l.
Proof.
  induction 1 as [|a l Ha Hl IH]; simpl; [reflexivity|].
  rewrite (String.eqb_sym a x).
  destruct (String.eqb_spec x a) as [->|N]; simpl.
  - symmetry. apply filter_keeps_all, Forall_forall. intros b Hb.
    destruct (String.eqb_spec b a) as [->|]; [contradiction | reflexivity].
  - now rewrite IH.
Qed.

Lemma remove_each_filter xs l :
  NoDup l -> remove_each xs l = filter (fun y => negb (py_in y xs)) l.
Proof.
  unfold remove_each. revert l. induction xs as [|x xs IH]; intros l Hl; simpl.
  - symmetry. apply filter_keeps_all, Forall_forall. reflexivity.
  - rewrite IH, (remove_first_filter x l Hl).
    + clear. induction l as [|a l IHl]; simpl; [reflexivity|].
      destruct (String.eqb a x); simpl; [exact IHl|].
      destruct (py_in a xs); simpl; now rewrite IHl.
    + rewrite (remove_first_filter x l Hl). now apply NoDup_filter.
Qed.

Lemma remove_each_NoDup xs l : NoDup l -> NoDup (remove_each xs l).
Proof. intros Hl. rewrite (remove_each_filter xs l Hl). now apply NoDup_filter. Qed.

(** X9.  With no item selected in the list, remove_selected_from_source and
    remove_selected_from_target read the selection, issue the warning
    "No item selected in the list." and change nothing. *)
Theorem remove_with_nothing_selected (lw : ListWidget) (rm : M H unit) (w : World H) :
  (lw = source_list /\ rm = remove_selected_from_source)
  \/ (lw = target_list /\ rm = remove_selected_from_target) ->
  selectItem (get_list lw (ui w)) = [] ->
  issued w (snd (rm w))
  = [TslQuerySelectItem lw; CmdWarning "No item selected in the list."]
  /\ ui (snd (rm w)) = ui w
  /\ scene (snd (rm w)) = scene w
  /\ fst (rm w) = Returned tt.
Proof.
  intros Hrm Hsel.
  assert (E : rm = remove_selected_from lw)
    by (destruct Hrm as [[-> ->] | [-> ->]]; reflexivity).
  rewrite E, remove_selected_from_run, Hsel. simpl.
  repeat split. apply issued_app. simpl. now rewrite <- app_assoc.
Qed.

(** X10.  remove_selected_from_source and remove_selected_from_target take the
    selected items out of their list one by one and add nothing: every
    item left was there before.  When the list names no object twice, what
    is left is the list without the selected items, in the same order, and
    no selected item remains. *)
Theorem remove_selected_removes (lw : ListWidget) (rm : M H unit) (w : World H) :
  (lw = source_list /\ rm = remove_selected_from_source)
  \/ (lw = target_list /\ rm = remove_selected_from_target) ->
  let items := allItems (get_list lw (ui w)) in
  let sel := selectItem (get_list lw (ui w)) in
  let items' := allItems (get_list lw (ui (snd (rm w)))) in
  (forall x, In x items' -> In x items)
  /\ List.length items' <= List.length items
  /\ (NoDup items ->
        items' = filter (fun x => negb (py_in x sel)) items
        /\ (forall x, In x sel -> ~ In x items')).
Proof.
  intros Hrm items sel items'.
  assert (E : items' = remove_each sel items).
  { subst items'. destruct Hrm as [[-> ->] | [-> ->]];
      apply remove_selected_from_items. }
  rewrite E. split; [|split].
  - intros x. apply remove_each_incl.
  - apply remove_each_length.
  - intros Hnd. rewrite (remove_each_filter sel items Hnd). split; [reflexivity|].
    intros x Hx Hin. apply filter_In in Hin as [_ Hf].
    apply py_in_In in Hx. now rewrite Hx in Hf.
Qed.

(** ** The copy callbacks *)

Ltac issued_here := apply issued_app; simpl; repeat rewrite <- app_assoc; reflexivity.

(** X11.  Which warning the copy callbacks give.  The source list is tested
    first, so with both lists empty the warning is about Column A; the
    target list comes next; one-to-one mode compares the lengths last.
    The two modes word the Column A warning differently. *)
Theorem copy_callbacks_warning_messages (w : World H) :
  let src := allItems (ui_source_list (ui w)) in
  let tgt := allItems (ui_target_list (ui w)) in
  let asked := [TslQueryAllItems source_list; TslQueryAllItems target_list] in
  (src = [] ->
     issued w (snd (copy_weights_button_pressed w))
     = asked ++ [CmdWarning "Please add a source object to Column A."]
     /\ issued w (snd (copy_weights_one_to_one w))
        = asked ++ [CmdWarning "Please add at least one source object to Column A."])
  /\ (src <> [] -> tgt = [] ->
        issued w (snd (copy_weights_button_pressed w))
        = asked ++ [CmdWarning "Please add at least one target object to Column B."]
        /\ issued w (snd (copy_weights_one_to_one w))
           = asked ++ [CmdWarning "Please add at least one target object to Column B."])
  /\ (src <> [] -> tgt <> [] -> List.length src <> List.length tgt ->
        issued w (snd (copy_weights_one_to_one w))
        = asked ++ [CmdWarning
                      "The number of objects in Column A and Column B must be the same."]).
Proof.
  intros src tgt asked. subst src tgt asked.
  destruct w as [s [[src sel1 m1] [tgt sel2 m2] b1 b2] h].
  unfold copy_weights_button_pressed, copy_weights_one_to_one, bind,
    tsl_query_allItems, ui_query. simpl.
  split; [|split].
  - intros ->. simpl. split; issued_here.
  - intros N ->. destruct src as [|x src]; [now contradiction N|]. simpl.
    split; issued_here.
  - intros N1 N2 L.
    destruct src as [|x src]; [now contradiction N1|].
    destruct tgt as [|y tgt]; [now contradiction N2|]. simpl in *.
    destruct (Nat.eqb_spec (List.length src) (List.length tgt)) as [E|E].
    + exfalso. apply L. now rewrite E.
    + simpl. issued_here.
Qed.

Lemma copy_weights_one_to_one_run (w : World H) (sources targets : list string) :
  allItems (ui_source_list (ui w)) = sources ->
  allItems (ui_target_list (ui w)) = targets ->
  sources <> [] ->
  List.length sources = List.length targets ->
  copy_weights_one_to_one w
  = for_each (combine sources targets)
             (fun st => copy_skin_weights (fst st) (snd st))
             (log (TslQueryAllItems target_list) (log (TslQueryAllItems source_list) w)).
Proof.
  intros Es Et N L.
  unfold copy_weights_one_to_one, bind, tsl_query_allItems, ui_query. simpl.
  rewrite Es, Et.
  destruct sources as [|x sources]; [now contradiction N|].
  destruct targets as [|y targets]; [discriminate L|].
  simpl in L. injection L as L. simpl. rewrite L, Nat.eqb_refl. reflexivity.
Qed.

(** ** copy_skin_weights step by step *)

(** Every way copy_skin_weights can run when the source has a skin
    cluster, by what the host answers. *)
Lemma copy_skin_weights_cases (source target : string) (w : World H) :
  let ss := findRelatedSkinCluster H (scene w) source in
  let tc := findRelatedSkinCluster H (scene w) target in
  let joints := skinCluster_influences H (scene w) ss in
  let r := copy_skin_weights source target w in
  ss <> "" ->
  exists bind_cmds dst tail,
    history (snd r)
    = history w
      ++ [MelFindRelatedSkinCluster source; MelFindRelatedSkinCluster target]
      ++ bind_cmds ++ tail
    /\ (tc <> "" -> bind_cmds = [] /\ dst = Some tc)
    /\ (tc = "" ->
          bind_cmds = [SkinClusterQueryInf ss; SkinClusterBind joints target]
          /\ match fst (skinCluster_bind H (scene w) joints target) with
             | Returned (c :: _) => dst = Some c
             | Returned [] => dst = None /\ fst r = Raised "IndexError"
             | Raised e => dst = None /\ fst r = Raised e
             end)
    /\ match dst with
       | None => tail = []
       | Some ds =>
           let copy := CopySkinWeights ss ds true "closestPoint" "closestJoint" in
           (tail = [copy] /\ exists e, fst r = Raised e)
           \/ (tail = [copy; Select target] /\ exists e, fst r = Raised e)
           \/ (tail = [copy; Select target; CmdWarning (copied_message source target)]
               /\ fst r = Returned tt)
       end.
Proof.
  intros ss tc joints r Hss. subst ss tc joints r.
  unfold copy_skin_weights, bind, mel_findRelatedSkinCluster, cmds_skinCluster_query_inf,
    cmds_skinCluster_bind, cmds_copySkinWeights, cmds_select, cmds_warning, cmds_error,
    scene_query, scene_edit, copied_message.
  simpl.
  destruct (findRelatedSkinCluster H (scene w) source) as [|a ss] eqn:Es;
    [now contradiction Hss|]. simpl.
  destruct (findRelatedSkinCluster H (scene w) target) as [|b tc] eqn:Et; simpl.
  - destruct (skinCluster_bind H (scene w) (skinCluster_influences H (scene w) (String a ss))
                target) as [[[|ds bound]|e] s1]; simpl.
    + exists [SkinClusterQueryInf (String a ss);
              SkinClusterBind (skinCluster_influences H (scene w) (String a ss)) target],
             None, [].
      repeat rewrite <- app_assoc. simpl. repeat split; congruence.
    + destruct (copySkinWeights H s1 (String a ss) ds true "closestPoint" "closestJoint")
        as [[[]|e] s2]; simpl;
        [destruct (select H s2 target) as [[[]|e] s3]; simpl|];
        (exists [SkinClusterQueryInf (String a ss);
                 SkinClusterBind (skinCluster_influences H (scene w) (String a ss)) target],
                (Some ds));
        eexists; (split; [repeat rewrite <- app_assoc; simpl; reflexivity|]);
        (split; [congruence|]); (split; [intros _; split; reflexivity|]);
        eauto 6.
    + exists [SkinClusterQueryInf (String a ss);
              SkinClusterBind (skinCluster_influences H (scene w) (String a ss)) target],
             None, [].
      repeat rewrite <- app_assoc. simpl. repeat split; congruence.
  - destruct (copySkinWeights H (scene w) (String a ss) (String b tc) true
                "closestPoint" "closestJoint") as [[[]|e] s2]; simpl;
      [destruct (select H s2 target) as [[[]|e] s3]; simpl|];
      (exists [], (Some (String b tc)));
      eexists; (split; [repeat rewrite <- app_assoc; simpl; reflexivity|]);
      (split; [intros _; split; reflexivity|]); (split; [congruence|]);
      eauto 6.
Qed.

Lemma copy_skin_weights_unbound_source (source target : string) (w : World H) :
  findRelatedSkinCluster H (scene w) source = "" ->
  history (snd (copy_skin_weights source target w))
  = history w ++ [MelFindRelatedSkinCluster source;
                  CmdError "Source object has no skin cluster."].
Proof.
  intros E.
  unfold copy_skin_weights, bind, mel_findRelatedSkinCluster, scene_query, cmds_error.
  rewrite E. simpl. now rewrite <- app_assoc.
Qed.

(** X13.  copy_skin_weights binds the target only when the target has no skin
    cluster yet, and then to the joints that influence the source's
    cluster, asked from the host just before; a target that is already
    bound is never bound again. *)
Theorem copy_skin_weights_binds_unbound_target (source target : string) (w : World H) :
  let ss := findRelatedSkinCluster H (scene w) source in
  let tc := findRelatedSkinCluster H (scene w) target in
  let joints := skinCluster_influences H (scene w) ss in
  let cmds := issued w (snd (copy_skin_weights source target w)) in
  ss <> "" ->
  (tc <> "" -> filter is_bind cmds = [] /\ ~ In (SkinClusterQueryInf ss) cmds)
  /\ (tc = "" ->
        filter is_bind cmds = [SkinClusterBind joints target]
        /\ exists tail,
             cmds = [MelFindRelatedSkinCluster source; MelFindRelatedSkinCluster target;
                     SkinClusterQueryInf ss; SkinClusterBind joints target] ++ tail).
Proof.
  intros ss tc joints cmds Hss.
  destruct (copy_skin_weights_cases source target w Hss)
    as (bind_cmds & dst & tail & Hh & Hbound & Hunbound & Htail).
  fold ss tc joints in Hh, Hbound, Hunbound, Htail.
  assert (I : cmds = [MelFindRelatedSkinCluster source; MelFindRelatedSkinCluster target]
                     ++ bind_cmds ++ tail)
    by (subst cmds; now apply issued_app).
  assert (Ht : filter is_bind tail = [] /\ ~ In (SkinClusterQueryInf ss) tail).
  { destruct dst as [ds|]; [|subst tail; simpl; tauto].
    destruct Htail as [[-> _] | [[-> _] | [-> _]]]; simpl; split; try reflexivity;
      intuition discriminate. }
  destruct Ht as [Ht1 Ht2]. rewrite I. clear I. split.
  - intros Htc. destruct (Hbound Htc) as [-> _]. simpl. split; [exact Ht1|].
    intros [D|[D|D]]; try discriminate D. now apply Ht2.
  - intros Htc. destruct (Hunbound Htc) as [-> _]. simpl. rewrite Ht1.
    split; [reflexivity|]. now exists tail.
Qed.

(** X14.  When copy_skin_weights has to bind the target, the weights are copied
    to the first cluster the bind returns.  A bind that fails, or returns
    no cluster, ends the call in an exception before any copy. *)
Theorem copy_skin_weights_after_bind (source target : string) (w : World H) :
  let ss := findRelatedSkinCluster H (scene w) source in
  let joints := skinCluster_influences H (scene w) ss in
  let r := copy_skin_weights source target w in
  let cmds := issued w (snd r) in
  ss <> "" ->
  findRelatedSkinCluster H (scene w) target = "" ->
  match fst (skinCluster_bind H (scene w) joints target) with
  | Returned (c :: _) =>
      filter is_copySkinWeights cmds
      = [CopySkinWeights ss c true "closestPoint" "closestJoint"]
  | Returned [] => fst r = Raised "IndexError" /\ filter is_copySkinWeights cmds = []
  | Raised e => fst r = Raised e /\ filter is_copySkinWeights cmds = []
  end.
Proof.
  intros ss joints r cmds Hss Htc.
  destruct (copy_skin_weights_cases source target w Hss)
    as (bind_cmds & dst & tail & Hh & _ & Hunbound & Htail).
  fold ss joints r in Hh, Hunbound, Htail.
  destruct (Hunbound Htc) as [-> Hbind].
  assert (I : cmds = [MelFindRelatedSkinCluster source; MelFindRelatedSkinCluster target]
                     ++ [SkinClusterQueryInf ss; SkinClusterBind joints target] ++ tail)
    by (subst cmds; now apply issued_app).
  rewrite I. clear I. simpl.
  destruct (fst (skinCluster_bind H (scene w) joints target)) as [[|c more]|e].
  - destruct Hbind as [-> Hr]. subst tail. now split.
  - subst dst. destruct Htail as [[-> _] | [[-> _] | [-> _]]]; reflexivity.
  - destruct Hbind as [-> Hr]. subst tail. now split.
Qed.

(** ** The mode *)

Lemma toggle_mode_ui (w : World H) :
  ui (snd (toggle_mode w))
  = if String.eqb (label (ui_copy_button (ui w))) "Copy Skin Weights (Single Source)" then
      {| ui_source_list := tsl_set_allowMultiSelection true (ui_source_list (ui w));
         ui_target_list := ui_target_list (ui w);
         ui_copy_button := {| label := "Copy Skin Weights (One-to-One)";
                              command := cb_copy_weights_one_to_one;
                              backgroundColor := orange |};
         ui_toggle_button := {| label := label (ui_toggle_button (ui w));
                                command := command (ui_toggle_button (ui w));
                                backgroundColor := orange |} |}
    else
      {| ui_source_list := tsl_set_allowMultiSelection false (ui_source_list (ui w));
         ui_target_list := ui_target_list (ui w);
         ui_copy_button := {| label := "Copy Skin Weights (Single Source)";
                              command := cb_copy_weights_button_pressed;
                              backgroundColor := sky_blue |};
         ui_toggle_button := {| label := label (ui_toggle_button (ui w));
                                command := command (ui_toggle_button (ui w));
                                backgroundColor := sky_blue |} |}.
Proof.
  unfold toggle_mode, bind, button_query_label, button_edit_label, button_edit_color,
    tsl_edit_allowMultiSelection, ui_query, ui_edit. simpl.
  destruct (String.eqb (label (ui_copy_button (ui w))) "Copy Skin Weights (Single Source)");
    reflexivity.
Qed.

(** X16.  toggle_mode switches between the two modes and sets everything that
    shows the mode together: from the single-source label it goes to
    one-to-one mode (label, bound callback, both colours) and lets the
    source list select several items; from any other label it goes to
    single-source mode and makes the source list single-selection. *)
Theorem toggle_mode_switches (w : World H) :
  let w' := snd (toggle_mode w) in
  (label (ui_copy_button (ui w)) = "Copy Skin Weights (Single Source)" ->
     one_to_one_mode (ui w')
     /\ allowMultiSelection (ui_source_list (ui w')) = true)
  /\ (label (ui_copy_button (ui w)) <> "Copy Skin Weights (Single Source)" ->
        single_source_mode (ui w')
        /\ allowMultiSelection (ui_source_list (ui w')) = false).
Proof.
  intros w'. subst w'. rewrite toggle_mode_ui.
  destruct (String.eqb_spec (label (ui_copy_button (ui w)))
                            "Copy Skin Weights (Single Source)") as [E|N].
  - split; [|now intros N]. intros _. repeat split.
  - split; [now intros E|]. intros _. repeat split.
Qed.

Lemma Callback_eq_toggle (cb : Callback) : cb = cb_toggle_mode \/ cb <> cb_toggle_mode.
Proof. destruct cb; (now left) || (right; discriminate). Qed.

Lemma dispatch_keeps_mode_consistent (cb : Callback) (w : World H) :
  mode_consistent (ui w) -> mode_consistent (ui (snd (dispatch cb w))).
Proof.
  intros Hc.
  destruct (Callback_eq_toggle cb) as [->|N].
  - simpl. rewrite toggle_mode_ui.
    destruct Hc as (_ & Hl & Hcmd).
    destruct (String.eqb (label (ui_copy_button (ui w)))
                         "Copy Skin Weights (Single Source)");
      (split; [|split; [exact Hl | exact Hcmd]]).
    + right. split; reflexivity.
    + left. split; reflexivity.
  - pose proof (list_callbacks_keep_mode cb N w) as K.
    unfold kept, mode_state, beside_lists in K.
    injection K as K1 K2 _ _.
    unfold mode_consistent, single_source_mode, one_to_one_mode in *.
    now rewrite K1, K2.
Qed.

(** X17.  The mode widgets stay consistent.  create_ui builds them in
    single-source mode, and whatever buttons are pressed afterwards, in
    any order, the copy button's label, the callback bound to it and the
    colours of both buttons keep naming one and the same mode, and the
    toggle button stays bound to toggle_mode. *)
Theorem mode_stays_consistent (cbs : list Callback) (w : World H) :
  mode_consistent create_ui
  /\ (mode_consistent (ui w) -> mode_consistent (ui (run_callbacks cbs w))).
Proof.
  split.
  - split; [left; split; reflexivity | split; reflexivity].
  - unfold run_callbacks. revert w. induction cbs as [|cb cbs IH]; intros w Hc; simpl.
    + exact Hc.
    + apply IH. now apply dispatch_keeps_mode_consistent.
Qed.

(** X18.  Two presses of the toggle button bring both buttons back: from a
    consistent state, the copy button has again the label, the bound
    callback and the colour it had, the toggle button its colour, and
    the items of both lists never moved. *)
Theorem toggle_mode_twice (w : World H) :
  mode_consistent (ui w) ->
  let w2 := snd (toggle_mode (snd (toggle_mode w))) in
  ui_copy_button (ui w2) = ui_copy_button (ui w)
  /\ ui_toggle_button (ui w2) = ui_toggle_button (ui w)
  /\ list_items (ui w2) = list_items (ui w).
Proof.
  intros Hc w2. subst w2. rewrite !toggle_mode_ui.
  destruct Hc as ([[Hb Ht] | [Hb Ht]] & _ & _);
    rewrite Hb; simpl;
    destruct (ui_toggle_button (ui w)) as [l c bg]; simpl in *; subst bg;
    repeat split.
Qed.

(** ** Lists without duplicates *)

Lemma toggle_mode_items lw (w : World H) :
  allItems (get_list lw (ui (snd (toggle_mode w)))) = allItems (get_list lw (ui w)).
Proof.
  rewrite toggle_mode_ui.
  destruct (String.eqb (label (ui_copy_button (ui w))) "Copy Skin Weights (Single Source)");
    destruct lw; reflexivity.
Qed.

Lemma own_list_stays_duplicate_free (cb : Callback) (lw : ListWidget) (w : World H) :
  NoDup (allItems (get_list lw (ui w))) ->
  (cb = cb_add_to_source -> lw = source_list -> NoDup (ls_selection H (scene w))) ->
  (cb = cb_add_to_target -> lw = target_list ->
   NoDup (flat_map (contribution (scene w)) (ls_selection H (scene w)))) ->
  NoDup (allItems (get_list lw (ui (snd (dispatch cb w))))).
Proof.
  intros Hnd Hsrc Htgt.
  assert (Hadd : forall l objs, NoDup l -> NoDup objs ->
                   NoDup (l ++ filter (fun obj => negb (py_in obj l)) objs)).
  { intros l objs Hl Hobjs. apply NoDup_app; [exact Hl | now apply NoDup_filter |].
    intros a Ha Hf. apply filter_In in Hf as [_ Hf].
    apply py_in_In in Ha. now rewrite Ha in Hf. }
  assert (Hsort : NoDup (allItems (get_list lw (ui (snd (sort_column lw w)))))).
  { rewrite sort_column_items.
    apply (Permutation_NoDup (sorted_perm (allItems (get_list lw (ui w)))) Hnd). }
  assert (Hrem : NoDup (allItems (get_list lw (ui (snd (remove_selected_from lw w)))))).
  { rewrite remove_selected_from_items. now apply remove_each_NoDup. }
  assert (Hother : forall lw0, list_of cb = Some lw0 -> lw <> lw0 ->
                     NoDup (allItems (get_list lw (ui (snd (dispatch cb w)))))).
  { intros lw0 E N. now rewrite (dispatch_keeps_other_list cb lw0 lw w E N). }
  destruct cb, lw;
    try (apply (Hother source_list); [reflexivity | discriminate]);
    try (apply (Hother target_list); [reflexivity | discriminate]);
    try match goal with
        | |- context [dispatch ?c w] =>
            rewrite (copy_dispatch_keeps_ui c w eq_refl); exact Hnd
        end;
    try exact Hsort; try exact Hrem;
    try (cbn [dispatch]; rewrite toggle_mode_items; exact Hnd);
    try (simpl; constructor).
  - cbn [dispatch get_list]. rewrite add_to_source_items.
    apply Hadd; [exact Hnd | now apply Hsrc].
  - cbn [dispatch get_list]. rewrite add_to_target_items.
    apply Hadd; [exact Hnd | now apply Htgt].
Qed.

(** X19.  The source list stays free of duplicates under every callback, as
    long as the host's selection names no object twice when
    add_to_source reads it. *)
Theorem source_list_stays_duplicate_free (cb : Callback) (w : World H) :
  NoDup (allItems (ui_source_list (ui w))) ->
  NoDup (ls_selection H (scene w)) ->
  NoDup (allItems (ui_source_list (ui (snd (dispatch cb w))))).
Proof.
  intros Hnd Hsel.
  apply (own_list_stays_duplicate_free cb source_list w Hnd).
  - intros _ _. exact Hsel.
  - intros _ D. discriminate D.
Qed.

(** X20.  The target list stays free of duplicates under every callback, as
    long as what the selected objects contribute to add_to_target names
    no object twice (no selected object is also a descendant of a
    selected group, and no two selected groups share a descendant). *)
Theorem target_list_stays_duplicate_free (cb : Callback) (w : World H) :
  NoDup (allItems (ui_target_list (ui w))) ->
  NoDup (flat_map (contribution (scene w)) (ls_selection H (scene w))) ->
  NoDup (allItems (ui_target_list (ui (snd (dispatch cb w))))).
Proof.
  intros Hnd Hsel.
  apply (own_list_stays_duplicate_free cb target_list w Hnd).
  - intros _ D. discriminate D.
  - intros _ _. exact Hsel.
Qed.

End More.

(** ** Runs on the concrete host *)

Lemma list_callbacks_keep_scene_witness :
  let w := toy_world true (wardrobe ["clothes"]) ["body"] [] in
  is_copy_callback cb_add_to_target = false
  /\ scene (snd (dispatch cb_add_to_target w)) = scene w.
Proof.
  intros w. split; [reflexivity|].
  exact (list_callbacks_keep_scene cb_add_to_target w eq_refl).
Defined.

Lemma copy_callbacks_keep_widgets_witness :
  let w := toy_world true (wardrobe []) ["body"] ["shirt"; "pants"] in
  is_copy_callback cb_copy_weights_button_pressed = true
  /\ ui (snd (dispatch cb_copy_weights_button_pressed w)) = ui w.
Proof.
  intros w. split; [reflexivity|].
  exact (copy_callbacks_keep_widgets cb_copy_weights_button_pressed w eq_refl).
Defined.

Lemma callbacks_keep_other_list_witness :
  let w := toy_world true (wardrobe ["shirt"]) ["body"] ["pants"] in
  list_of cb_add_to_source = Some source_list
  /\ target_list <> source_list
  /\ get_list target_list (ui (snd (dispatch cb_add_to_source w))) = get_list target_list (ui w).
Proof.
  intros w.
  assert (N : target_list <> source_list) by discriminate.
  split; [reflexivity|]. split; [exact N|].
  exact (callbacks_keep_other_list cb_add_to_source source_list target_list w eq_refl N).
Defined.

Lemma add_to_source_appends_new_witness :
  let w := toy_world true (wardrobe ["body"; "shirt"]) ["body"] [] in
  allItems (ui_source_list (ui (snd (add_to_source w)))) = ["body"; "shirt"].
Proof.
  intros w. exact (proj1 (add_to_source_appends_new w)).
Defined.

Lemma add_to_target_group_witness :
  let w := toy_world true (wardrobe ["clothes"]) [] ["pants"] in
  ls_selection (toy_host true) (scene w) = ["clothes"]
  /\ objectType (toy_host true) (scene w) "clothes" = "transform"
  /\ listRelatives (toy_host true) (scene w) "clothes" = Some ["shirt"; "pants"]
  /\ allItems (ui_target_list (ui (snd (add_to_target w)))) = ["pants"; "shirt"].
Proof.
  intros w. split; [reflexivity|]. split; [reflexivity|]. split; [reflexivity|].
  exact (proj1 (add_to_target_group w "clothes" "shirt" ["pants"] eq_refl eq_refl eq_refl)).
Defined.

Lemma remove_with_nothing_selected_witness :
  let w := toy_world true (wardrobe []) ["body"] ["shirt"] in
  selectItem (get_list source_list (ui w)) = []
  /\ issued w (snd (remove_selected_from_source w))
     = [TslQuerySelectItem source_list; CmdWarning "No item selected in the list."].
Proof.
  intros w. split; [reflexivity|].
  exact (proj1 (remove_with_nothing_selected source_list remove_selected_from_source w
                  (or_introl (conj eq_refl eq_refl)) eq_refl)).
Defined.

Lemma remove_selected_removes_witness :
  NoDup (allItems (get_list target_list (ui shirt_selected)))
  /\ allItems (get_list target_list (ui (snd (remove_selected_from_target shirt_selected))))
     = ["pants"; "body"].
Proof.
  assert (Hnd : NoDup (allItems (get_list target_list (ui shirt_selected)))).
  { repeat constructor; simpl; intuition discriminate. }
  split; [exact Hnd|].
  destruct (remove_selected_removes target_list remove_selected_from_target shirt_selected
              (or_intror (conj eq_refl eq_refl))) as (_ & _ & Hfilter).
  exact (proj1 (Hfilter Hnd)).
Defined.

Lemma copy_callbacks_warning_messages_witness :
  let w := toy_world true (wardrobe []) [] [] in
  issued w (snd (copy_weights_button_pressed w))
  = [TslQueryAllItems source_list; TslQueryAllItems target_list;
     CmdWarning "Please add a source object to Column A."].
Proof.
  intros w. exact (proj1 (proj1 (copy_callbacks_warning_messages w) eq_refl)).
Defined.

Lemma copy_skin_weights_binds_unbound_target_witness :
  let w := toy_world true (wardrobe []) ["body"] ["shirt"] in
  findRelatedSkinCluster (toy_host true) (scene w) "body" <> ""
  /\ findRelatedSkinCluster (toy_host true) (scene w) "shirt" = ""
  /\ filter is_bind (issued w (snd (copy_skin_weights "body" "shirt" w)))
     = [SkinClusterBind (Some ["joint1"; "joint2"]) "shirt"].
Proof.
  intros w.
  assert (N : findRelatedSkinCluster (toy_host true) (scene w) "body" <> "") by discriminate.
  split; [exact N|]. split; [reflexivity|].
  exact (proj1 (proj2 (copy_skin_weights_binds_unbound_target "body" "shirt" w N) eq_refl)).
Defined.

Lemma copy_skin_weights_after_bind_witness :
  let w := toy_world true (wardrobe []) ["body"] ["shirt"] in
  findRelatedSkinCluster (toy_host true) (scene w) "body" <> ""
  /\ findRelatedSkinCluster (toy_host true) (scene w) "shirt" = ""
  /\ filter is_copySkinWeights (issued w (snd (copy_skin_weights "body" "shirt" w)))
     = [CopySkinWeights "skinCluster1" "skinCluster_shirt" true "closestPoint" "closestJoint"].
Proof.
  intros w.
  assert (N : findRelatedSkinCluster (toy_host true) (scene w) "body" <> "") by discriminate.
  split; [exact N|]. split; [reflexivity|].
  exact (copy_skin_weights_after_bind "body" "shirt" w N eq_refl).
Defined.

Lemma toggle_mode_switches_witness :
  let w := toy_world true (wardrobe []) ["body"] ["shirt"] in
  label (ui_copy_button (ui w)) = "Copy Skin Weights (Single Source)"
  /\ one_to_one_mode (ui (snd (toggle_mode w))).
Proof.
  intros w. split; [reflexivity|].
  exact (proj1 (proj1 (toggle_mode_switches w) eq_refl)).
Defined.

Lemma mode_stays_consistent_witness :
  let w := toy_world true (wardrobe ["shirt"]) [] [] in
  let presses := [cb_add_to_source; cb_toggle_mode; cb_copy_weights_one_to_one;
                  cb_toggle_mode; cb_toggle_mode] in
  mode_consistent (ui w)
  /\ mode_consistent (ui (run_callbacks presses w)).
Proof.
  intros w presses.
  assert (C : mode_consistent (ui w))
    by (split; [left; split; reflexivity | split; reflexivity]).
  split; [exact C|].
  exact (proj2 (mode_stays_consistent presses w) C).
Defined.

Lemma toggle_mode_twice_witness :
  let w := toy_world true (wardrobe []) ["body"] ["shirt"] in
  mode_consistent (ui w)
  /\ ui_copy_button (ui (snd (toggle_mode (snd (toggle_mode w))))) = ui_copy_button (ui w).
Proof.
  intros w.
  assert (C : mode_consistent (ui w))
    by (split; [left; split; reflexivity | split; reflexivity]).
  split; [exact C|].
  exact (proj1 (toggle_mode_twice w C)).
Defined.

Lemma source_list_stays_duplicate_free_witness :
  let w := toy_world true (wardrobe ["shirt"; "body"]) ["body"] [] in
  NoDup (allItems (ui_source_list (ui w)))
  /\ NoDup (ls_selection (toy_host true) (scene w))
  /\ NoDup (allItems (ui_source_list (ui (snd (dispatch cb_add_to_source w))))).
Proof.
  intros w.
  assert (D1 : NoDup (allItems (ui_source_list (ui w))))
    by (repeat constructor; simpl; intuition discriminate).
  assert (D2 : NoDup (ls_selection (toy_host true) (scene w)))
    by (repeat constructor; simpl; intuition discriminate).
  split; [exact D1|]. split; [exact D2|].
  exact (source_list_stays_duplicate_free cb_add_to_source w D1 D2).
Defined.

Lemma target_list_stays_duplicate_free_witness :
  let w := toy_world true (wardrobe ["clothes"; "body"]) [] ["pants"] in
  NoDup (allItems (ui_target_list (ui w)))
  /\ NoDup (flat_map (contribution (scene w)) (ls_selection (toy_host true) (scene w)))
  /\ NoDup (allItems (ui_target_list (ui (snd (dispatch cb_add_to_target w))))).
Proof.
  intros w.
  assert (D1 : NoDup (allItems (ui_target_list (ui w))))
    by (repeat constructor; simpl; intuition discriminate).
  assert (D2 : NoDup (flat_map (contribution (scene w))
                               (ls_selection (toy_host true) (scene w))))
    by (repeat constructor; simpl; intuition discriminate).
  split; [exact D1|]. split; [exact D2|].
  exact (target_list_stays_duplicate_free cb_add_to_target w D1 D2).
Defined.

(** * Whole runs *)

Section Runs.

Context {H : Host}.
Implicit Types (w : World H).

Ltac through refl trans leaf :=
  repeat first
    [ apply (steps_ret _ refl) | apply (steps_raise _ refl) | apply (steps_index0 _ refl)
    | apply (steps_bind _ trans); [|intros ?]
    | apply (steps_for_each _ refl trans); intros ?
    | match goal with
      | |- steps _ (if ?b then _ else _) => destruct b
      | |- steps _ (match ?x with _ => _ end) => destruct x
      end
    | leaf ].

(** ** The scene follows the host's commands *)

Lemma replay_app (cmds1 cmds2 : list Cmd) (s : Scene H) :
  replay (cmds1 ++ cmds2) s = replay cmds2 (replay cmds1 s).
Proof. unfold replay. apply fold_left_app. Qed.

Lemma replayed_refl w : replayed w w.
Proof. exists []. split; [now rewrite app_nil_r | reflexivity]. Qed.

Lemma replayed_trans w1 w2 w3 : replayed w1 w2 -> replayed w2 w3 -> replayed w1 w3.
Proof.
  intros (c1 & E1 & S1) (c2 & E2 & S2). exists (c1 ++ c2). split.
  - now rewrite E2, E1, app_assoc.
  - now rewrite replay_app, <- S1.
Qed.

Lemma replays_scene_query {A : Type} c (f : Scene H -> A) :
  (forall s : Scene H, host_effect c s = s) -> steps replayed (scene_query c f).
Proof. intros Hc w. exists [c]. split; [reflexivity|]. simpl. now rewrite Hc. Qed.

Lemma replays_scene_edit {A : Type} c (f : Scene H -> Outcome A * Scene H) :
  (forall s, host_effect c s = snd (f s)) -> steps replayed (scene_edit c f).
Proof.
  intros Hc w. exists [c]. unfold scene_edit. simpl. rewrite Hc.
  destruct (f (scene w)) as [o s]. split; reflexivity.
Qed.

Lemma replays_ui_query {A : Type} c (f : UI -> A) :
  (forall s : Scene H, host_effect c s = s) -> steps replayed (@ui_query H A c f).
Proof. intros Hc w. exists [c]. split; [reflexivity|]. simpl. now rewrite Hc. Qed.

Lemma replays_ui_edit c (f : UI -> UI) :
  (forall s : Scene H, host_effect c s = s) -> steps replayed (@ui_edit H c f).
Proof. intros Hc w. exists [c]. split; [reflexivity|]. simpl. now rewrite Hc. Qed.

Lemma replays_warning msg : steps replayed (@cmds_warning H msg).
Proof. intros w. exists [CmdWarning msg]. split; reflexivity. Qed.

Lemma replays_error msg : steps replayed (@cmds_error H msg).
Proof. intros w. exists [CmdError msg]. split; reflexivity. Qed.

Ltac replays_leaf :=
  first [ apply replays_warning | apply replays_error
        | apply replays_scene_query; intros ?; reflexivity
        | apply replays_scene_edit; intros ?; reflexivity
        | apply replays_ui_query; intros ?; reflexivity
        | apply replays_ui_edit; intros ?; reflexivity ].

Lemma copy_skin_weights_replays source target :
  steps replayed (@copy_skin_weights H source target).
Proof.
  unfold copy_skin_weights. through replayed_refl replayed_trans replays_leaf.
Qed.

(** What the host did in a call of copy_skin_weights that returned with
    the source bound: the copy ran on the scene the (possible) bind left,
    to the target's cluster or to the first cluster the bind returned,
    and returned; the select ran on the scene the copy left, and returned
    the scene the call ends in. *)
Lemma copy_skin_weights_returned (source target : string) (w : World H) :
  let ss := findRelatedSkinCluster H (scene w) source in
  let tc := findRelatedSkinCluster H (scene w) target in
  let joints := skinCluster_influences H (scene w) ss in
  let r := copy_skin_weights source target w in
  ss <> "" ->
  fst r = Returned tt ->
  exists s0 ds s1,
    ((tc <> "" /\ ds = tc /\ s0 = scene w)
     \/ (tc = "" /\ exists more,
           skinCluster_bind H (scene w) joints target = (Returned (ds :: more), s0)))
    /\ copySkinWeights H s0 ss ds true "closestPoint" "closestJoint" = (Returned tt, s1)
    /\ select H s1 target = (Returned tt, scene (snd r)).
Proof.
  intros ss tc joints r Hss. subst ss tc joints r.
  unfold copy_skin_weights, bind, mel_findRelatedSkinCluster, cmds_skinCluster_query_inf,
    cmds_skinCluster_bind, cmds_copySkinWeights, cmds_select, cmds_warning, cmds_error,
    scene_query, scene_edit.
  simpl.
  destruct (findRelatedSkinCluster H (scene w) source) as [|a ss] eqn:Es;
    [now contradiction Hss|]. simpl.
  destruct (findRelatedSkinCluster H (scene w) target) as [|b tc] eqn:Et; simpl.
  - destruct (skinCluster_bind H (scene w) (skinCluster_influences H (scene w) (String a ss))
                target) as [[[|ds bound]|e] s1] eqn:Eb; simpl; try discriminate.
    destruct (copySkinWeights H s1 (String a ss) ds true "closestPoint" "closestJoint")
      as [[[]|e] s2] eqn:Ec; simpl; try discriminate.
    destruct (select H s2 target) as [[[]|e] s3] eqn:Esel; simpl; try discriminate.
    intros _. exists s1, ds, s2. split; [right; split; [reflexivity | now exists bound]|].
    split; [exact Ec | exact Esel].
  - destruct (copySkinWeights H (scene w) (String a ss) (String b tc) true
                "closestPoint" "closestJoint") as [[[]|e] s2] eqn:Ec; simpl;
      try discriminate.
    destruct (select H s2 target) as [[[]|e] s3] eqn:Esel; simpl; try discriminate.
    intros _. exists (scene w), (String b tc), s2.
    split; [left; repeat split; discriminate|].
    split; [exact Ec | exact Esel].
Qed.

(** C1.  Whatever the source, the target and the world, copy_skin_weights
    transfers weights by the host's copySkinWeights and by nothing else.
    The commands it issues contain at most one weight-transfer command,
    always copySkinWeights from the source's skin cluster with
    noMirror=True, surfaceAssociation='closestPoint' and
    influenceAssociation='closestJoint'; its destination is the target's
    cluster, or the first cluster the bind returned when the target had
    none.  There is exactly one whenever the source has a skin cluster and
    the call returns, and none when the source has no skin cluster.  The
    scene the call leaves is the scene the host reaches by running the
    issued commands, so the script itself contributes nothing to it; when
    the call returns with the source bound, that scene is what the host's
    copySkinWeights and then select returned. *)
Theorem copy_skin_weights_delegates (source target : string) (w : World H) :
  let ss := findRelatedSkinCluster H (scene w) source in
  let tc := findRelatedSkinCluster H (scene w) target in
  let joints := skinCluster_influences H (scene w) ss in
  let r := copy_skin_weights source target w in
  let cmds := issued w (snd r) in
  history (snd r) = history w ++ cmds
  /\ (forall c, In c cmds -> is_copySkinWeights c = true ->
        exists ds, c = CopySkinWeights ss ds true "closestPoint" "closestJoint")
  /\ List.length (filter is_copySkinWeights cmds) <= 1
  /\ (fst r = Returned tt -> ss <> "" ->
        List.length (filter is_copySkinWeights cmds) = 1)
  /\ (ss <> "" -> tc <> "" ->
        filter is_copySkinWeights cmds
        = [CopySkinWeights ss tc true "closestPoint" "closestJoint"])
  /\ (ss = "" -> filter is_copySkinWeights cmds = [] /\ scene (snd r) = scene w)
  /\ (ss <> "" -> tc = "" ->
        match fst (skinCluster_bind H (scene w) joints target) with
        | Returned (c :: _) =>
            filter is_copySkinWeights cmds
            = [CopySkinWeights ss c true "closestPoint" "closestJoint"]
        | _ => filter is_copySkinWeights cmds = []
        end)
  /\ scene (snd r) = replay cmds (scene w)
  /\ (ss <> "" -> fst r = Returned tt ->
        exists s0 ds s1,
          ((tc <> "" /\ ds = tc /\ s0 = scene w)
           \/ (tc = "" /\ exists more,
                 skinCluster_bind H (scene w) joints target = (Returned (ds :: more), s0)))
          /\ copySkinWeights H s0 ss ds true "closestPoint" "closestJoint"
             = (Returned tt, s1)
          /\ select H s1 target = (Returned tt, scene (snd r))).
Proof.
  intros ss tc joints r cmds.
  destruct (copy_skin_weights_commands source target w)
    as (cmds' & E & P1 & P2 & P3 & P4 & P5).
  fold ss tc r in E, P1, P2, P3, P4, P5.
  assert (I : cmds = cmds') by (subst cmds; now apply issued_app).
  destruct (copy_skin_weights_replays source target w) as (cmds2 & E2 & S2).
  fold r in E2, S2.
  assert (I2 : cmds2 = cmds') by (rewrite E2 in E; now apply app_inv_head in E).
  rewrite I. subst cmds2.
  split; [exact E|]. split; [exact P1|]. split; [exact P2|]. split; [exact P3|].
  split; [exact P4|]. split; [|split; [|split; [exact S2|]]].
  - intros Hss. split; [now apply P5|].
    rewrite S2. pose proof (copy_skin_weights_unbound_source source target w Hss) as Hu.
    fold r in Hu. rewrite E in Hu. apply app_inv_head in Hu. now rewrite Hu.
  - intros Hss Htc.
    destruct (copy_skin_weights_cases source target w Hss)
      as (bind_cmds & dst & tail & Hh & _ & Hunbound & Htail).
    fold ss joints r in Hh, Hunbound, Htail.
    destruct (Hunbound Htc) as [-> Hbind].
    rewrite E in Hh. apply app_inv_head in Hh. rewrite Hh. simpl.
    destruct (fst (skinCluster_bind H (scene w) joints target)) as [[|c more]|e].
    + destruct Hbind as [-> _]. now subst tail.
    + subst dst. destruct Htail as [[-> _] | [[-> _] | [-> _]]]; reflexivity.
    + destruct Hbind as [-> _]. now subst tail.
  - intros Hss Hr. exact (copy_skin_weights_returned source target w Hss Hr).
Qed.

(** ** Loops end at the first exception *)

Lemma for_each_loop_ended {A : Type} (body : A -> M H unit) (xs : list A) (w : World H) :
  loop_ended body xs w (fst (for_each xs body w)) (snd (for_each xs body w)).
Proof.
  revert w. induction xs as [|x xs IH]; intros w.
  - left. repeat split.
  - cbn [for_each]. unfold bind. destruct (body x w) as [[[]|e] w1] eqn:E.
    + destruct (IH w1) as [(Ho & Hall & Hw) | (done & y & rest & e & Hxs & Hall & Hy & Ho)].
      * left. split; [exact Ho|]. split.
        -- simpl. rewrite E. now split.
        -- simpl. now rewrite E.
      * right. exists (x :: done), y, rest, e. split; [now rewrite Hxs|]. split.
        -- simpl. rewrite E. now split.
        -- simpl. rewrite E. simpl. split; [|exact Ho].
           rewrite Hy. now destruct (for_each xs body w1).
    + right. exists [], x, xs, e. simpl. repeat split. exact E.
Qed.

(** C3, as the script has it.  In single-source mode with both lists
    non-empty, copy_weights_button_pressed takes the first item of the
    source list as the source and invokes copy_skin_weights on the target
    items in the target list's order, one invocation per item, each
    starting in the world the one before left.  Either every invocation
    returns, and then the callback returns with every target processed;
    or the invocations on the first targets return, the next one ends in
    an exception, and the callback ends right there in that exception, in
    the world that invocation left, with the remaining targets untouched.
    The source-list items after the first are ignored: what is issued, how
    the callback ends and the scene it leaves do not depend on them. *)
Theorem single_source_copies_in_order (w : World H) (source : string)
  (rest targets : list string) :
  allItems (ui_source_list (ui w)) = source :: rest ->
  allItems (ui_target_list (ui w)) = targets ->
  targets <> [] ->
  let w0 := log (TslQueryAllItems target_list) (log (TslQueryAllItems source_list) w) in
  let copy := copy_skin_weights source in
  let r := copy_weights_button_pressed w in
  ((fst r = Returned tt
    /\ all_returned copy targets w0
    /\ snd r = run_all copy targets w0)
   \/ (exists done target later e,
         targets = done ++ target :: later
         /\ all_returned copy done w0
         /\ copy target (run_all copy done w0) = (Raised e, snd r)
         /\ fst r = Raised e))
  /\ (forall w2 rest2,
        scene w2 = scene w ->
        allItems (ui_source_list (ui w2)) = source :: rest2 ->
        allItems (ui_target_list (ui w2)) = targets ->
        let r2 := copy_weights_button_pressed w2 in
        issued w2 (snd r2) = issued w (snd r)
        /\ fst r2 = fst r
        /\ scene (snd r2) = scene (snd r)).
Proof.
  intros Es Et N w0 copy r.
  assert (Hr : r = for_each targets copy w0)
    by (apply (copy_weights_button_pressed_run w source rest targets Es Et N)).
  split.
  - rewrite Hr. exact (for_each_loop_ended copy targets w0).
  - intros w2 rest2 Hs Es2 Et2 r2.
    destruct (copy_weights_button_pressed_scene_only w source rest targets Es Et N)
      as (Ho & Hsc & Hi).
    destruct (copy_weights_button_pressed_scene_only w2 source rest2 targets Es2 Et2 N)
      as (Ho2 & Hsc2 & Hi2).
    assert (Hb : bare w2 = bare w) by (unfold bare; now rewrite Hs).
    rewrite Hb in Ho2, Hsc2, Hi2.
    subst r r2. rewrite Ho, Ho2, Hsc, Hsc2, Hi, Hi2. repeat split.
Qed.

(** X12.  In one-to-one mode, with as many targets as sources (and at
    least one), copy_weights_one_to_one invokes copy_skin_weights on the
    pairs (i-th source, i-th target) in list order, each invocation
    starting in the world the one before left.  Either every invocation
    returns, and then the callback returns with every pair processed; or
    the invocations on the first pairs return, the next one ends in an
    exception, and the callback ends right there in that exception, in
    the world that invocation left, with the remaining pairs untouched. *)
Theorem one_to_one_copies_pairs (w : World H) (sources targets : list string) :
  allItems (ui_source_list (ui w)) = sources ->
  allItems (ui_target_list (ui w)) = targets ->
  sources <> [] ->
  List.length sources = List.length targets ->
  let w0 := log (TslQueryAllItems target_list) (log (TslQueryAllItems source_list) w) in
  let copy_pair := fun st : string * string => copy_skin_weights (fst st) (snd st) in
  let pairs := combine sources targets in
  let r := copy_weights_one_to_one w in
  List.length pairs = List.length sources
  /\ ((fst r = Returned tt
       /\ all_returned copy_pair pairs w0
       /\ snd r = run_all copy_pair pairs w0)
      \/ (exists done pair later e,
            pairs = done ++ pair :: later
            /\ all_returned copy_pair done w0
            /\ copy_pair pair (run_all copy_pair done w0) = (Raised e, snd r)
            /\ fst r = Raised e)).
Proof.
  intros Es Et N L w0 copy_pair pairs r.
  assert (Hr : r = for_each pairs copy_pair w0)
    by (apply (copy_weights_one_to_one_run w sources targets Es Et N L)).
  split.
  - subst pairs. rewrite length_combine. lia.
  - rewrite Hr. exact (for_each_loop_ended copy_pair pairs w0).
Qed.

(** ** The success message *)

(** X15.  copy_skin_weights never reports a copy that did not happen.
    Any warning it issues is the message "Skin weights copied from
    <source> to <target>.", it is the last command of the call, and the
    call returns.  The two commands before it are the copySkinWeights
    from the source's cluster and the selection of the target, and the
    host has run both and both returned: the copy on the scene the call
    had reached, to the target's cluster or to the first cluster the bind
    returned for it, and the select on the scene the copy left, giving the
    scene the call ends in.  Conversely a call that returns with the
    source bound ends with that message. *)
Theorem copy_skin_weights_reports_after_copy (source target : string) (w : World H) :
  let ss := findRelatedSkinCluster H (scene w) source in
  let tc := findRelatedSkinCluster H (scene w) target in
  let joints := skinCluster_influences H (scene w) ss in
  let r := copy_skin_weights source target w in
  let cmds := issued w (snd r) in
  let done := CmdWarning (copied_message source target) in
  (forall msg, In (CmdWarning msg) cmds ->
     CmdWarning msg = done
     /\ fst r = Returned tt
     /\ exists before s0 ds s1,
          cmds = before ++ [CopySkinWeights ss ds true "closestPoint" "closestJoint";
                            Select target; done]
          /\ ((tc <> "" /\ ds = tc /\ s0 = scene w)
              \/ (tc = "" /\ exists more,
                    skinCluster_bind H (scene w) joints target
                    = (Returned (ds :: more), s0)))
          /\ copySkinWeights H s0 ss ds true "closestPoint" "closestJoint"
             = (Returned tt, s1)
          /\ select H s1 target = (Returned tt, scene (snd r)))
  /\ (ss <> "" -> fst r = Returned tt -> In done cmds).
Proof.
  intros ss tc joints r cmds done.
  destruct (string_dec ss "") as [Hss|Hss].
  - assert (I : cmds = [MelFindRelatedSkinCluster source;
                        CmdError "Source object has no skin cluster."]).
    { subst cmds. apply issued_app. now apply copy_skin_weights_unbound_source. }
    rewrite I. split; [|now intros N].
    intros msg [D|[D|[]]]; discriminate D.
  - destruct (copy_skin_weights_cases source target w Hss)
      as (bind_cmds & dst & tail & Hh & Hbound & Hunbound & Htail).
    fold ss tc joints r in Hh, Hbound, Hunbound, Htail.
    assert (I : cmds = [MelFindRelatedSkinCluster source; MelFindRelatedSkinCluster target]
                       ++ bind_cmds ++ tail)
      by (subst cmds; now apply issued_app).
    assert (Hb : forall msg, ~ In (CmdWarning msg) bind_cmds).
    { intros msg. destruct (string_dec tc "") as [Htc|Htc].
      - destruct (Hunbound Htc) as [-> _]. simpl. intuition discriminate.
      - destruct (Hbound Htc) as [-> _]. simpl. tauto. }
    assert (Hdst : fst r = Returned tt ->
                   exists s0 ds s1,
                     dst = Some ds
                     /\ ((tc <> "" /\ ds = tc /\ s0 = scene w)
                         \/ (tc = "" /\ exists more,
                               skinCluster_bind H (scene w) joints target
                               = (Returned (ds :: more), s0)))
                     /\ copySkinWeights H s0 ss ds true "closestPoint" "closestJoint"
                        = (Returned tt, s1)
                     /\ select H s1 target = (Returned tt, scene (snd r))).
    { intros Hr.
      destruct (copy_skin_weights_returned source target w Hss Hr)
        as (s0 & ds & s1 & Hpre & Hcopy & Hsel).
      fold ss tc joints r in Hpre, Hcopy, Hsel.
      exists s0, ds, s1. split; [|now repeat split].
      destruct Hpre as [(Htc & -> & _) | (Htc & more & Hbind)].
      - now destruct (Hbound Htc) as [_ ->].
      - destruct (Hunbound Htc) as [_ Hm]. rewrite Hbind in Hm. exact Hm. }
    rewrite I. clear I. split.
    + intros msg Hin. simpl in Hin.
      destruct Hin as [D|[D|Hin]]; try discriminate D.
      apply in_app_or in Hin. destruct Hin as [Hin|Hin]; [now apply Hb in Hin|].
      destruct dst as [ds|]; [|subst tail; destruct Hin].
      destruct Htail as [[-> [e He]] | [[-> [e He]] | [-> Hr]]]; simpl in Hin.
      * destruct Hin as [D|[]]; discriminate D.
      * destruct Hin as [D|[D|[]]]; discriminate D.
      * destruct Hin as [D|[D|[D|[]]]]; try discriminate D.
        split; [now symmetry|]. split; [exact Hr|].
        destruct (Hdst Hr) as (s0 & ds' & s1 & Hds & Hpre & Hcopy & Hsel).
        injection Hds as <-.
        exists ([MelFindRelatedSkinCluster source; MelFindRelatedSkinCluster target]
                  ++ bind_cmds), s0, ds, s1.
        split; [now rewrite <- !app_assoc|]. now repeat split.
    + intros _ Hr.
      destruct (Hdst Hr) as (s0 & ds & s1 & -> & _).
      destruct Htail as [[-> [e He]] | [[-> [e He]] | [-> _]]]; try congruence.
      apply in_or_app. right. apply in_or_app. right. simpl. tauto.
Qed.

(** ** What a callback depends on *)

Section Alike.

Variable R : World H -> World H -> Prop.

Lemma alike_ret {A : Type} (a : A) : alike R (@ret H A a).
Proof.
  intros w1 w2 HR. split; [reflexivity|]. split; [exact HR|].
  exists []. now rewrite !app_nil_r.
Qed.

Lemma alike_raise {A : Type} e : alike R (@raise H A e).
Proof.
  intros w1 w2 HR. split; [reflexivity|]. split; [exact HR|].
  exists []. now rewrite !app_nil_r.
Qed.

Lemma alike_bind {A B : Type} (m : M H A) (k : A -> M H B) :
  alike R m -> (forall a, alike R (k a)) -> alike R (bind m k).
Proof.
  intros Hm Hk w1 w2 HR. unfold bind.
  destruct (Hm w1 w2 HR) as (Ho & HR' & cmds & E1 & E2).
  destruct (m w1) as [[a1|e1] v1], (m w2) as [[a2|e2] v2]; simpl in *;
    try discriminate Ho.
  - injection Ho as <-.
    destruct (Hk a1 v1 v2 HR') as (Ho2 & HR2 & cmds2 & F1 & F2).
    split; [exact Ho2|]. split; [exact HR2|].
    exists (cmds ++ cmds2). now rewrite F1, F2, E1, E2, !app_assoc.
  - injection Ho as <-. split; [reflexivity|]. split; [exact HR'|]. now exists cmds.
Qed.

Lemma alike_for_each {A : Type} (xs : list A) (body : A -> M H unit) :
  (forall x, alike R (body x)) -> alike R (for_each xs body).
Proof.
  intros Hb. induction xs as [|x xs IH]; simpl.
  - apply alike_ret.
  - apply alike_bind; [apply Hb | intros _; exact IH].
Qed.

Lemma alike_index0 xs : alike R (@index0 H xs).
Proof. destruct xs; [apply alike_raise | apply alike_ret]. Qed.

End Alike.

Lemma same_scene_query cb {A : Type} c (f : Scene H -> A) :
  alike (same_to cb) (scene_query c f).
Proof.
  intros w1 w2 (Hs & Hl & Ha). unfold scene_query. simpl. rewrite Hs.
  split; [reflexivity|]. split; [now repeat split|]. now exists [c].
Qed.

Lemma same_scene_edit cb {A : Type} c (f : Scene H -> Outcome A * Scene H) :
  alike (same_to cb) (scene_edit c f).
Proof.
  intros w1 w2 (Hs & Hl & Ha). unfold scene_edit. rewrite Hs.
  destruct (f (scene w2)) as [o s]. simpl.
  split; [reflexivity|]. split; [now repeat split|]. now exists [c].
Qed.

Lemma same_warning cb msg : alike (same_to cb) (@cmds_warning H msg).
Proof.
  intros w1 w2 HR. split; [reflexivity|]. split; [exact HR|].
  now exists [CmdWarning msg].
Qed.

Lemma same_error cb msg : alike (same_to cb) (@cmds_error H msg).
Proof.
  intros w1 w2 HR. split; [reflexivity|]. split; [exact HR|].
  now exists [CmdError msg].
Qed.

Lemma same_ui_query cb {A : Type} c (f : UI -> A) :
  (forall u1 u2, list_items u1 = list_items u2 ->
                 also_reads cb u1 = also_reads cb u2 -> f u1 = f u2) ->
  alike (same_to cb) (@ui_query H A c f).
Proof.
  intros Hf w1 w2 (Hs & Hl & Ha). unfold ui_query. simpl.
  rewrite (Hf _ _ Hl Ha).
  split; [reflexivity|]. split; [now repeat split|]. now exists [c].
Qed.

Lemma same_ui_edit cb c (f : UI -> UI) :
  (forall u1 u2, list_items u1 = list_items u2 ->
                 also_reads cb u1 = also_reads cb u2 ->
                 list_items (f u1) = list_items (f u2)
                 /\ also_reads cb (f u1) = also_reads cb (f u2)) ->
  alike (same_to cb) (@ui_edit H c f).
Proof.
  intros Hf w1 w2 (Hs & Hl & Ha). unfold ui_edit. simpl.
  destruct (Hf _ _ Hl Ha) as [Hl' Ha'].
  split; [reflexivity|]. split; [now repeat split|]. now exists [c].
Qed.

Ltac same_widgets :=
  intros [[i1 s1 m1] [i2 s2 m2] [l1 c1 g1] [l2 c2 g2]]
         [[j1 t1 n1] [j2 t2 n2] [k1 d1 h1] [k2 d2 h2]] Hl Ha;
  unfold list_items, also_reads in *; simpl in *;
  inversion Hl; inversion Ha; subst;
  first [ reflexivity | split; reflexivity ].

Ltac same_leaf :=
  first [ apply same_warning | apply same_error
        | apply same_scene_query | apply same_scene_edit
        | apply same_ui_query; same_widgets
        | apply same_ui_edit; same_widgets ].

Ltac same_go :=
  repeat first
    [ apply alike_ret | apply alike_raise | apply alike_index0
    | apply alike_bind; [|intros ?]
    | apply alike_for_each; intros ?
    | match goal with
      | |- alike _ (if ?b then _ else _) => destruct b
      | |- alike _ (match ?x with _ => _ end) => destruct x
      end
    | same_leaf ].

Lemma same_collect_objects cb selected acc :
  alike (same_to cb) (@collect_objects H selected acc).
Proof.
  revert acc. induction selected as [|obj rest IH]; intros acc; simpl.
  - apply alike_ret.
  - same_go; apply IH.
Qed.

Lemma dispatch_alike cb : alike (same_to cb) (@dispatch H cb).
Proof.
  destruct cb; simpl;
    unfold add_to_source, add_to_target, remove_selected_from_source,
      remove_selected_from_target, remove_selected_from, copy_weights_button_pressed,
      copy_weights_one_to_one, clear_source_list, clear_target_list, toggle_mode,
      sort_column_a, sort_column_b, sort_column, append_missing, copy_skin_weights;
    repeat first [ apply same_collect_objects | progress same_go ].
Qed.

(** C8, as the script has it.  What a callback issues is a function of
    the scene and of the part of the widget state it reads: the items of
    the two lists and, besides, the selected items of its list for the
    two remove callbacks and the copy button's label for toggle_mode.
    Two invocations of the same callback from worlds that agree on the
    scene and on that part (and may differ in everything else: what was
    issued before, the other selections, the buttons, the selection
    modes) issue the same commands with the same arguments, end the same
    way, and leave worlds that agree again.  When the two worlds have the
    same widgets altogether, they end with the same widgets. *)
Theorem callbacks_deterministic (cb : Callback) (w1 w2 : World H) :
  scene w1 = scene w2 ->
  list_items (ui w1) = list_items (ui w2) ->
  also_reads cb (ui w1) = also_reads cb (ui w2) ->
  let r1 := dispatch cb w1 in
  let r2 := dispatch cb w2 in
  issued w1 (snd r1) = issued w2 (snd r2)
  /\ history (snd r1) = history w1 ++ issued w1 (snd r1)
  /\ history (snd r2) = history w2 ++ issued w2 (snd r2)
  /\ fst r1 = fst r2
  /\ scene (snd r1) = scene (snd r2)
  /\ list_items (ui (snd r1)) = list_items (ui (snd r2))
  /\ also_reads cb (ui (snd r1)) = also_reads cb (ui (snd r2))
  /\ (ui w1 = ui w2 -> ui (snd r1) = ui (snd r2)).
Proof.
  intros Hs Hl Ha r1 r2.
  destruct (dispatch_alike cb w1 w2 (conj Hs (conj Hl Ha)))
    as (Ho & (Hs' & Hl' & Ha') & cmds & E1 & E2).
  fold r1 r2 in Ho, Hs', Hl', Ha', E1, E2.
  rewrite (issued_app w1 (snd r1) cmds E1), (issued_app w2 (snd r2) cmds E2).
  repeat split; try assumption.
  intros Hu. subst r1 r2.
  rewrite (framed_run (dispatch cb) w1 (framed_dispatch cb)).
  rewrite (framed_run (dispatch cb) w2 (framed_dispatch cb)).
  assert (E : with_history [] w1 = with_history [] w2)
    by (unfold with_history; now rewrite Hs, Hu).
  now rewrite E.
Qed.

(** ** The commands of each callback *)

Lemma history_add_to_source (w : World H) :
  history (snd (add_to_source w))
  = history w
    ++ LsSelection
       :: match ls_selection H (scene w) with
          | [] => [CmdWarning "No object selected."]
          | _ :: _ =>
              TslQueryAllItems source_list
              :: map (TslAppend source_list)
                     (filter (fun obj => negb (py_in obj (allItems (ui_source_list (ui w)))))
                             (ls_selection H (scene w)))
          end.
Proof.
  unfold add_to_source, bind, cmds_ls_selection, scene_query, tsl_query_allItems,
    ui_query, cmds_warning. simpl.
  destruct (ls_selection H (scene w)) as [|x sel] eqn:Esel; simpl.
  - now rewrite <- app_assoc.
  - rewrite append_missing_run, or_empty_py_list. unfold appended. simpl.
    now rewrite <- !app_assoc.
Qed.

Lemma collect_objects_asks (selected acc : list string) (w : World H) :
  exists asked,
    forallb is_query asked = true
    /\ collect_objects selected acc w
       = (Returned (acc ++ flat_map (contribution (scene w)) selected),
          with_history (history w ++ asked) w).
Proof.
  destruct (collect_objects_run selected acc w) as [h Hh].
  destruct (emits_collect_objects is_query selected acc
              (fun _ => eq_refl) (fun _ => eq_refl) w) as (cmds & E & Hq).
  rewrite Hh in E. simpl in E. apply app_inv_head in E. subst h.
  now exists cmds.
Qed.

Lemma history_add_to_target (w : World H) :
  exists asked,
    forallb is_query asked = true
    /\ history (snd (add_to_target w))
       = history w
         ++ LsSelection
            :: match ls_selection H (scene w) with
               | [] => [CmdWarning "No object selected."]
               | _ :: _ =>
                   asked
                   ++ TslQueryAllItems target_list
                      :: map (TslAppend target_list)
                             (filter
                                (fun obj =>
                                   negb (py_in obj (allItems (ui_target_list (ui w)))))
                                (flat_map (contribution (scene w))
                                          (ls_selection H (scene w))))
               end.
Proof.
  unfold add_to_target, bind, cmds_ls_selection, scene_query, cmds_warning. simpl.
  destruct (ls_selection H (scene w)) as [|x sel] eqn:Esel.
  - exists []. split; [reflexivity|]. simpl. now rewrite <- app_assoc.
  - destruct (collect_objects_asks (x :: sel) [] (log LsSelection w)) as (asked & Hq & Hh).
    exists asked. split; [exact Hq|].
    rewrite Hh. unfold tsl_query_allItems, ui_query. cbn [fst snd].
    rewrite append_missing_run, or_empty_py_list. unfold appended.
    cbn [snd ui scene history log with_history get_list].
    now rewrite <- !app_assoc.
Qed.

Lemma history_remove_selected_from lw (w : World H) :
  history (snd (remove_selected_from lw w))
  = history w
    ++ TslQuerySelectItem lw
       :: match selectItem (get_list lw (ui w)) with
          | [] => [CmdWarning "No item selected in the list."]
          | _ :: _ => map (TslRemoveItem lw) (selectItem (get_list lw (ui w)))
          end.
Proof.
  rewrite remove_selected_from_run.
  destruct (selectItem (get_list lw (ui w))) as [|x sel]; simpl;
    now rewrite <- !app_assoc.
Qed.

Lemma history_sort_column lw (w : World H) :
  history (snd (sort_column lw w))
  = history w
    ++ TslQueryAllItems lw
       :: match allItems (get_list lw (ui w)) with
          | [] => []
          | _ :: _ =>
              TslRemoveAll lw
              :: map (TslAppend lw) (sorted (allItems (get_list lw (ui w))))
          end.
Proof.
  rewrite sort_column_run.
  destruct (allItems (get_list lw (ui w))) as [|x items]; [reflexivity|].
  unfold appended, tsl_edit_removeAll, ui_edit. cbn [snd history log].
  now rewrite <- !app_assoc.
Qed.

Lemma history_toggle_mode (w : World H) :
  history (snd (toggle_mode w))
  = history w
    ++ ButtonQueryLabel copy_button
       :: (if String.eqb (label (ui_copy_button (ui w)))
                         "Copy Skin Weights (Single Source)"
           then [ButtonEditLabel copy_button "Copy Skin Weights (One-to-One)"
                                 cb_copy_weights_one_to_one orange;
                 ButtonEditColor toggle_button orange;
                 TslAllowMultiSelection source_list true]
           else [ButtonEditLabel copy_button "Copy Skin Weights (Single Source)"
                                 cb_copy_weights_button_pressed sky_blue;
                 ButtonEditColor toggle_button sky_blue;
                 TslAllowMultiSelection source_list false]).
Proof.
  unfold toggle_mode, bind, button_query_label, button_edit_label, button_edit_color,
    tsl_edit_allowMultiSelection, ui_query, ui_edit. simpl.
  destruct (String.eqb (label (ui_copy_button (ui w))) "Copy Skin Weights (Single Source)");
    simpl; now rewrite <- !app_assoc.
Qed.

(** One call of copy_skin_weights issues at most one bind and at most one
    copySkinWeights. *)
Lemma copy_skin_weights_counts (source target : string) (w : World H) :
  exists cmds,
    history (snd (copy_skin_weights source target w)) = history w ++ cmds
    /\ List.length (filter is_copySkinWeights cmds) <= 1
    /\ List.length (filter is_bind cmds) <= 1.
Proof.
  destruct (string_dec (findRelatedSkinCluster H (scene w) source) "") as [Hss|Hss].
  - eexists. split; [now apply copy_skin_weights_unbound_source|]. simpl. lia.
  - destruct (copy_skin_weights_cases source target w Hss)
      as (bind_cmds & dst & tail & Hh & Hbound & Hunbound & Htail).
    eexists. split; [exact Hh|].
    assert (Ht : List.length (filter is_copySkinWeights tail) <= 1
                 /\ filter is_bind tail = []).
    { destruct dst as [ds|]; [|subst tail; simpl; split; [lia | reflexivity]].
      destruct Htail as [[-> _] | [[-> _] | [-> _]]]; simpl; split;
        try lia; reflexivity. }
    destruct Ht as [Ht1 Ht2].
    assert (Hb : filter is_copySkinWeights bind_cmds = []
                 /\ List.length (filter is_bind bind_cmds) <= 1).
    { destruct (string_dec (findRelatedSkinCluster H (scene w) target) "") as [Htc|Htc].
      - destruct (Hunbound Htc) as [-> _]. simpl. split; [reflexivity | lia].
      - destruct (Hbound Htc) as [-> _]. simpl. split; [reflexivity | lia]. }
    destruct Hb as [Hb1 Hb2].
    simpl. rewrite !filter_app, Hb1, Ht2, app_nil_r. simpl. split; lia.
Qed.

Lemma for_each_counts {A : Type} (P Q : Cmd -> bool) (body : A -> M H unit)
  (xs : list A) (w : World H) :
  (forall x v, exists cmds,
      history (snd (body x v)) = history v ++ cmds
      /\ List.length (filter P cmds) <= 1
      /\ List.length (filter Q cmds) <= 1) ->
  exists cmds,
    history (snd (for_each xs body w)) = history w ++ cmds
    /\ List.length (filter P cmds) <= List.length xs
    /\ List.length (filter Q cmds) <= List.length xs.
Proof.
  intros Hb. revert w. induction xs as [|x xs IH]; intros w.
  - exists []. simpl. rewrite app_nil_r. repeat split; lia.
  - cbn [for_each]. unfold bind.
    destruct (Hb x w) as (c1 & E1 & P1 & Q1).
    destruct (body x w) as [[[]|e] w1]; simpl in *.
    + destruct (IH w1) as (c2 & E2 & P2 & Q2).
      exists (c1 ++ c2). rewrite E2, E1, app_assoc, !filter_app, !length_app.
      repeat split; lia.
    + exists c1. repeat split; try assumption; lia.
Qed.

Lemma history_copy_callbacks (cb : Callback) (w : World H) :
  is_copy_callback cb = true ->
  exists rest,
    history (snd (dispatch cb w))
    = history w ++ TslQueryAllItems source_list :: TslQueryAllItems target_list :: rest
    /\ List.length (filter is_copySkinWeights rest)
       <= List.length (allItems (ui_target_list (ui w)))
    /\ List.length (filter is_bind rest)
       <= List.length (allItems (ui_target_list (ui w))).
Proof.
  intros Hcb.
  assert (Hwarn : forall msg,
             exists rest,
               history (log (CmdWarning msg)
                            (log (TslQueryAllItems target_list)
                                 (log (TslQueryAllItems source_list) w)))
               = history w
                 ++ TslQueryAllItems source_list :: TslQueryAllItems target_list :: rest
               /\ List.length (filter is_copySkinWeights rest)
                  <= List.length (allItems (ui_target_list (ui w)))
               /\ List.length (filter is_bind rest)
                  <= List.length (allItems (ui_target_list (ui w)))).
  { intros msg. exists [CmdWarning msg]. simpl. rewrite <- !app_assoc. simpl.
    repeat split; lia. }
  assert (Hloop : forall (A : Type) (body : A -> M H unit) (xs : list A),
             (forall x v, exists cmds,
                 history (snd (body x v)) = history v ++ cmds
                 /\ List.length (filter is_copySkinWeights cmds) <= 1
                 /\ List.length (filter is_bind cmds) <= 1) ->
             List.length xs <= List.length (allItems (ui_target_list (ui w))) ->
             exists rest,
               history (snd (for_each xs body
                               (log (TslQueryAllItems target_list)
                                    (log (TslQueryAllItems source_list) w))))
               = history w
                 ++ TslQueryAllItems source_list :: TslQueryAllItems target_list :: rest
               /\ List.length (filter is_copySkinWeights rest)
                  <= List.length (allItems (ui_target_list (ui w)))
               /\ List.length (filter is_bind rest)
                  <= List.length (allItems (ui_target_list (ui w)))).
  { intros A body xs Hb Hlen.
    destruct (for_each_counts is_copySkinWeights is_bind body xs
                (log (TslQueryAllItems target_list) (log (TslQueryAllItems source_list) w))
                Hb) as (cmds & E & P1 & P2).
    exists cmds. rewrite E. simpl. rewrite <- !app_assoc. simpl.
    repeat split; lia. }
  destruct (allItems (ui_source_list (ui w))) as [|x src] eqn:Es;
    destruct (allItems (ui_target_list (ui w))) as [|y tgt] eqn:Et;
    destruct cb; try discriminate Hcb; cbn [dispatch];
    unfold copy_weights_button_pressed, copy_weights_one_to_one, bind,
      tsl_query_allItems, ui_query; simpl; rewrite Es, Et; simpl;
    try apply Hwarn.
  - apply (Hloop _ (copy_skin_weights x) (y :: tgt)); [|simpl; lia].
    intros t v. apply copy_skin_weights_counts.
  - destruct (Nat.eqb (List.length src) (List.length tgt)) eqn:El; simpl;
      [|apply Hwarn].
    apply (Hloop _ (fun st : string * string => copy_skin_weights (fst st) (snd st))
                 ((x, y) :: combine src tgt)).
    + intros st v. apply copy_skin_weights_counts.
    + simpl. rewrite length_combine. lia.
Qed.

(** C5, as the script has it.  A callback forwards its UI action to the
    host, but not as one command.  Apart from read-only queries and
    warnings, it issues only the host commands that carry out its own
    action, as many as the action needs:
    - clear_source_list and clear_target_list issue one removeAll and
      nothing else;
    - add_to_source asks for the selection, then either warns or asks for
      the list and issues one append per selected object the list did not
      hold; add_to_target does the same after asking the host about each
      selected object, with one append per contributed object;
    - the remove callbacks ask for the selected items, then either warn or
      issue one removeItem per selected item;
    - the sort callbacks ask for the list and, unless it is empty, issue
      one removeAll and one append per item, in sorted order;
    - toggle_mode asks for the copy button's label and issues three
      edits: the copy button, the toggle button's colour, the source
      list's selection mode;
    - the copy callbacks ask for both lists and then issue at most one
      bind and at most one copySkinWeights per target item. *)
Theorem callbacks_forward_their_action (cb : Callback) (w : World H) :
  let r := dispatch cb w in
  let cmds := issued w (snd r) in
  let src := ui_source_list (ui w) in
  let tgt := ui_target_list (ui w) in
  let sel := ls_selection H (scene w) in
  history (snd r) = history w ++ cmds
  /\ forallb (allowed cb) cmds = true
  /\ (cb = cb_clear_source_list -> cmds = [TslRemoveAll source_list])
  /\ (cb = cb_clear_target_list -> cmds = [TslRemoveAll target_list])
  /\ (cb = cb_toggle_mode -> List.length cmds = 4)
  /\ (cb = cb_add_to_source ->
        filter is_append cmds
        = map (TslAppend source_list)
              (filter (fun obj => negb (py_in obj (allItems src))) sel))
  /\ match cb with
     | cb_clear_source_list => cmds = [TslRemoveAll source_list]
     | cb_clear_target_list => cmds = [TslRemoveAll target_list]
     | cb_add_to_source =>
         cmds = LsSelection
                :: match sel with
                   | [] => [CmdWarning "No object selected."]
                   | _ :: _ =>
                       TslQueryAllItems source_list
                       :: map (TslAppend source_list)
                              (filter (fun obj => negb (py_in obj (allItems src))) sel)
                   end
     | cb_add_to_target =>
         exists asked,
           forallb is_query asked = true
           /\ cmds = LsSelection
                     :: match sel with
                        | [] => [CmdWarning "No object selected."]
                        | _ :: _ =>
                            asked
                            ++ TslQueryAllItems target_list
                               :: map (TslAppend target_list)
                                      (filter (fun obj => negb (py_in obj (allItems tgt)))
                                              (flat_map (contribution (scene w)) sel))
                        end
     | cb_remove_selected_from_source =>
         cmds = TslQuerySelectItem source_list
                :: match selectItem src with
                   | [] => [CmdWarning "No item selected in the list."]
                   | _ :: _ => map (TslRemoveItem source_list) (selectItem src)
                   end
     | cb_remove_selected_from_target =>
         cmds = TslQuerySelectItem target_list
                :: match selectItem tgt with
                   | [] => [CmdWarning "No item selected in the list."]
                   | _ :: _ => map (TslRemoveItem target_list) (selectItem tgt)
                   end
     | cb_sort_column_a =>
         cmds = TslQueryAllItems source_list
                :: match allItems src with
                   | [] => []
                   | _ :: _ =>
                       TslRemoveAll source_list
                       :: map (TslAppend source_list) (sorted (allItems src))
                   end
     | cb_sort_column_b =>
         cmds = TslQueryAllItems target_list
                :: match allItems tgt with
                   | [] => []
                   | _ :: _ =>
                       TslRemoveAll target_list
                       :: map (TslAppend target_list) (sorted (allItems tgt))
                   end
     | cb_toggle_mode =>
         cmds = ButtonQueryLabel copy_button
                :: (if String.eqb (label (ui_copy_button (ui w)))
                                  "Copy Skin Weights (Single Source)"
                    then [ButtonEditLabel copy_button "Copy Skin Weights (One-to-One)"
                                          cb_copy_weights_one_to_one orange;
                          ButtonEditColor toggle_button orange;
                          TslAllowMultiSelection source_list true]
                    else [ButtonEditLabel copy_button "Copy Skin Weights (Single Source)"
                                          cb_copy_weights_button_pressed sky_blue;
                          ButtonEditColor toggle_button sky_blue;
                          TslAllowMultiSelection source_list false])
     | cb_copy_weights_button_pressed | cb_copy_weights_one_to_one =>
         exists rest,
           cmds = TslQueryAllItems source_list :: TslQueryAllItems target_list :: rest
           /\ List.length (filter is_copySkinWeights rest) <= List.length (allItems tgt)
           /\ List.length (filter is_bind rest) <= List.length (allItems tgt)
     end.
Proof.
  intros r cmds src tgt sel.
  destruct (dispatch_emits_allowed cb w) as (cmds' & E & Hall). fold r in E.
  assert (I : cmds = cmds') by (subst cmds; now apply issued_app).
  rewrite I. clear I cmds.
  assert (Hpin : forall l, history (snd r) = history w ++ l -> cmds' = l).
  { intros l El. rewrite El in E. now apply app_inv_head in E. }
  assert (Hshape :
    match cb with
    | cb_clear_source_list => cmds' = [TslRemoveAll source_list]
    | cb_clear_target_list => cmds' = [TslRemoveAll target_list]
    | cb_add_to_source =>
        cmds' = LsSelection
                :: match sel with
                   | [] => [CmdWarning "No object selected."]
                   | _ :: _ =>
                       TslQueryAllItems source_list
                       :: map (TslAppend source_list)
                              (filter (fun obj => negb (py_in obj (allItems src))) sel)
                   end
    | cb_add_to_target =>
        exists asked,
          forallb is_query asked = true
          /\ cmds' = LsSelection
                     :: match sel with
                        | [] => [CmdWarning "No object selected."]
                        | _ :: _ =>
                            asked
                            ++ TslQueryAllItems target_list
                               :: map (TslAppend target_list)
                                      (filter (fun obj => negb (py_in obj (allItems tgt)))
                                              (flat_map (contribution (scene w)) sel))
                        end
    | cb_remove_selected_from_source =>
        cmds' = TslQuerySelectItem source_list
                :: match selectItem src with
                   | [] => [CmdWarning "No item selected in the list."]
                   | _ :: _ => map (TslRemoveItem source_list) (selectItem src)
                   end
    | cb_remove_selected_from_target =>
        cmds' = TslQuerySelectItem target_list
                :: match selectItem tgt with
                   | [] => [CmdWarning "No item selected in the list."]
                   | _ :: _ => map (TslRemoveItem target_list) (selectItem tgt)
                   end
    | cb_sort_column_a =>
        cmds' = TslQueryAllItems source_list
                :: match allItems src with
                   | [] => []
                   | _ :: _ =>
                       TslRemoveAll source_list
                       :: map (TslAppend source_list) (sorted (allItems src))
                   end
    | cb_sort_column_b =>
        cmds' = TslQueryAllItems target_list
                :: match allItems tgt with
                   | [] => []
                   | _ :: _ =>
                       TslRemoveAll target_list
                       :: map (TslAppend target_list) (sorted (allItems tgt))
                   end
    | cb_toggle_mode =>
        cmds' = ButtonQueryLabel copy_button
                :: (if String.eqb (label (ui_copy_button (ui w)))
                                  "Copy Skin Weights (Single Source)"
                    then [ButtonEditLabel copy_button "Copy Skin Weights (One-to-One)"
                                          cb_copy_weights_one_to_one orange;
                          ButtonEditColor toggle_button orange;
                          TslAllowMultiSelection source_list true]
                    else [ButtonEditLabel copy_button "Copy Skin Weights (Single Source)"
                                          cb_copy_weights_button_pressed sky_blue;
                          ButtonEditColor toggle_button sky_blue;
                          TslAllowMultiSelection source_list false])
    | cb_copy_weights_button_pressed | cb_copy_weights_one_to_one =>
        exists rest,
          cmds' = TslQueryAllItems source_list :: TslQueryAllItems target_list :: rest
          /\ List.length (filter is_copySkinWeights rest) <= List.length (allItems tgt)
          /\ List.length (filter is_bind rest) <= List.length (allItems tgt)
    end).
  { subst r src tgt sel. destruct cb; cbn [dispatch] in *.
    - apply Hpin, history_add_to_source.
    - destruct (history_add_to_target w) as (asked & Hq & Hh).
      exists asked. split; [exact Hq | now apply Hpin].
    - apply Hpin, (history_remove_selected_from source_list).
    - apply Hpin, (history_remove_selected_from target_list).
    - destruct (history_copy_callbacks cb_copy_weights_button_pressed w eq_refl)
        as (rest & Hh & Hc & Hb).
      exists rest. split; [now apply Hpin | now split].
    - destruct (history_copy_callbacks cb_copy_weights_one_to_one w eq_refl)
        as (rest & Hh & Hc & Hb).
      exists rest. split; [now apply Hpin | now split].
    - now apply Hpin.
    - now apply Hpin.
    - apply Hpin, history_toggle_mode.
    - apply Hpin, (history_sort_column source_list).
    - apply Hpin, (history_sort_column target_list). }
  split; [exact E|]. split; [exact Hall|].
  split; [intros ->; exact Hshape|]. split; [intros ->; exact Hshape|].
  split; [|split; [|exact Hshape]].
  - intros ->. rewrite Hshape.
    now destruct (String.eqb (label (ui_copy_button (ui w)))
                             "Copy Skin Weights (Single Source)").
  - intros ->. rewrite Hshape. subst sel. simpl.
    destruct (ls_selection H (scene w)) as [|x l]; [reflexivity|].
    cbn [filter is_append]. apply filter_append_map.
Qed.

End Runs.

(** ** Runs of the theorems on whole runs *)

Lemma copy_skin_weights_delegates_witness :
  let w := toy_world true (wardrobe []) ["body"] ["shirt"] in
  let r := copy_skin_weights "body" "shirt" w in
  findRelatedSkinCluster (toy_host true) (scene w) "body" <> ""
  /\ fst r = Returned tt
  /\ List.length (filter is_copySkinWeights (issued w (snd r))) = 1
  /\ scene (snd r) = replay (issued w (snd r)) (scene w).
Proof.
  intros w r.
  assert (N : findRelatedSkinCluster (toy_host true) (scene w) "body" <> "") by discriminate.
  split; [exact N|]. split; [reflexivity|].
  destruct (copy_skin_weights_delegates "body" "shirt" w)
    as (_ & _ & _ & Hone & _ & _ & _ & Hreplay & _).
  split; [exact (Hone eq_refl N) | exact Hreplay].
Defined.

Lemma single_source_copies_in_order_witness :
  let w := toy_world true (wardrobe []) ["body"; "clothes"] ["shirt"; "pants"] in
  let w0 := log (TslQueryAllItems target_list) (log (TslQueryAllItems source_list) w) in
  ["shirt"; "pants"] <> @nil string
  /\ snd (copy_weights_button_pressed w)
     = run_all (copy_skin_weights "body") ["shirt"; "pants"] w0.
Proof.
  intros w w0.
  assert (N : ["shirt"; "pants"] <> @nil string) by discriminate.
  split; [exact N|].
  destruct (proj1 (single_source_copies_in_order w "body" ["clothes"] ["shirt"; "pants"]
                     eq_refl eq_refl N))
    as [(_ & _ & Hw) | (done & t & later & e & _ & _ & _ & Hraise)].
  - exact Hw.
  - cbv in Hraise. discriminate Hraise.
Defined.

Lemma callbacks_forward_their_action_witness :
  let w := toy_world true (wardrobe []) ["body"] ["shirt"] in
  issued w (snd (dispatch cb_clear_source_list w)) = [TslRemoveAll source_list].
Proof.
  intros w.
  destruct (callbacks_forward_their_action cb_clear_source_list w) as (_ & _ & Hone & _).
  exact (Hone eq_refl).
Defined.

Lemma callbacks_deterministic_witness :
  let w1 := toy_world true (wardrobe ["clothes"]) ["body"] [] in
  let w2 := with_history [LsSelection; CmdWarning "No object selected."]
              (snd (toggle_mode w1)) in
  scene w1 = scene w2
  /\ list_items (ui w1) = list_items (ui w2)
  /\ also_reads cb_add_to_target (ui w1) = also_reads cb_add_to_target (ui w2)
  /\ ui w1 <> ui w2
  /\ history w1 <> history w2
  /\ issued w1 (snd (dispatch cb_add_to_target w1))
     = issued w2 (snd (dispatch cb_add_to_target w2)).
Proof.
  intros w1 w2.
  split; [reflexivity|]. split; [reflexivity|]. split; [reflexivity|].
  split; [discriminate|]. split; [discriminate|].
  exact (proj1 (callbacks_deterministic cb_add_to_target w1 w2 eq_refl eq_refl eq_refl)).
Defined.

Lemma one_to_one_copies_pairs_witness :
  let w := toy_world true (wardrobe []) ["body"; "body"] ["shirt"; "pants"] in
  let w0 := log (TslQueryAllItems target_list) (log (TslQueryAllItems source_list) w) in
  ["body"; "body"] <> @nil string
  /\ snd (copy_weights_one_to_one w)
     = run_all (fun st => copy_skin_weights (fst st) (snd st))
               [("body", "shirt"); ("body", "pants")] w0.
Proof.
  intros w w0.
  assert (N : ["body"; "body"] <> @nil string) by discriminate.
  split; [exact N|].
  destruct (proj2 (one_to_one_copies_pairs w ["body"; "body"] ["shirt"; "pants"]
                     eq_refl eq_refl N eq_refl))
    as [(_ & _ & Hw) | (done & p & later & e & _ & _ & _ & Hraise)].
  - exact Hw.
  - cbv in Hraise. discriminate Hraise.
Defined.

Lemma copy_skin_weights_reports_after_copy_witness :
  let w := toy_world true (wardrobe []) ["body"] ["shirt"] in
  findRelatedSkinCluster (toy_host true) (scene w) "body" <> ""
  /\ fst (copy_skin_weights "body" "shirt" w) = Returned tt
  /\ In (CmdWarning "Skin weights copied from body to shirt.")
        (issued w (snd (copy_skin_weights "body" "shirt" w))).
Proof.
  intros w.
  assert (N : findRelatedSkinCluster (toy_host true) (scene w) "body" <> "") by discriminate.
  split; [exact N|]. split; [reflexivity|].
  exact (proj2 (copy_skin_weights_reports_after_copy "body" "shirt" w) N eq_refl).
Defined.

(** ** On a raising host, and with another label *)

(** Against C2 as stated.  On a host whose error command raises, as
    Maya's does, copy_skin_weights does not return when the source has no
    skin cluster: the call ends in the exception, after the query and the
    error and nothing else. *)
Lemma copy_skin_weights_raises_without_source_cluster :
  let w := toy_world true (unbound []) ["body"] ["shirt"] in
  let r := copy_skin_weights "body" "shirt" w in
  findRelatedSkinCluster (toy_host true) (scene w) "body" = ""
  /\ fst r = Raised "RuntimeError"
  /\ fst r <> Returned tt
  /\ issued w (snd r)
     = [MelFindRelatedSkinCluster "body"; CmdError "Source object has no skin cluster."].
Proof.
  intros w r. repeat split. intros E. discriminate E.
Qed.

(** Against C8 as stated.  Two worlds with the same items in both lists
    and the same scene, one in single-source mode and one in one-to-one
    mode: toggle_mode issues other commands in the one than in the other.
    What it issues depends on the copy button's label, which is no part of
    the list contents. *)
Lemma toggle_mode_reads_the_label :
  let w1 := toy_world true (wardrobe []) ["body"] ["shirt"] in
  let w2 := with_history [] (snd (dispatch cb_toggle_mode w1)) in
  scene w1 = scene w2
  /\ list_items (ui w1) = list_items (ui w2)
  /\ history w1 = history w2
  /\ label (ui_copy_button (ui w1)) <> label (ui_copy_button (ui w2))
  /\ issued w1 (snd (dispatch cb_toggle_mode w1))
     <> issued w2 (snd (dispatch cb_toggle_mode w2)).
Proof.
  intros w1 w2. repeat split; intros E; discriminate E.
Qed.
